(** * flog: file-backed loggers (BufferedLog, DirectLog, New)

    A shallow embedding of the Go package [flog] and of the fragments of the
    Go standard library it calls ([fmt.Sprintf], [log.Logger]), followed by
    the properties of the package that its specification states.

    Go strings are byte sequences: they are [string]s here.  An [int32] is a
    [Z] in the range [-2^31, 2^31).  A call that may panic returns an
    [outcome].  The buffered logger runs a background goroutine; the
    interplay of that goroutine with the callers of the public methods is a
    labelled transition system ([exec]), one label per atomic action. *)

From Stdlib Require Import ZArith NArith List String Ascii Bool Lia DecimalString.
Import ListNotations.

Set Warnings "-register-all".

Local Open Scope string_scope.
Local Open Scope Z_scope.

(** ** Outcomes of calls that may panic *)

Inductive panic : Type :=
| IndexOutOfRange          (* runtime error: index out of range *)
| NilDereference           (* runtime error: invalid memory address or nil pointer dereference *)
| IOError.                 (* panic(err) with the error of a file operation *)

(** [Unmodelled] is not a behaviour of the program: it marks a call whose
    format string leaves the fragment of [fmt] that [Sprintf] below covers. *)
Inductive outcome (A : Type) : Type :=
| Ok (a : A)
| Panic (p : panic)
| Unmodelled.

Arguments Ok {A} a.
Arguments Panic {A} p.
Arguments Unmodelled {A}.

Definition bind {A B : Type} (m : outcome A) (k : A -> outcome B) : outcome B :=
  match m with
  | Ok a => k a
  | Panic p => Panic p
  | Unmodelled => Unmodelled
  end.

Notation "x <- m ;; k" := (bind m (fun x => k))
  (at level 61, m at next level, right associativity).

(** ** Strings as Go uses them *)

Definition newline : ascii := "010"%char.
Definition nl : string := String newline "".

(** [s[len(s)-1]]: [None] stands for the index -1 of an empty string. *)
Fixpoint last_byte (s : string) : option ascii :=
  match s with
  | EmptyString => None
  | String c EmptyString => Some c
  | String _ rest => last_byte rest
  end.

Definition ends_with_newline (s : string) : bool :=
  match last_byte s with
  | Some c => Ascii.eqb c newline
  | None => false
  end.

Fixpoint all_newlines (s : string) : bool :=
  match s with
  | EmptyString => true
  | String c rest => Ascii.eqb c newline && all_newlines rest
  end.

(** Number of newline bytes at the end of [s]. *)
Fixpoint trailing_newlines (s : string) : nat :=
  match s with
  | EmptyString => O
  | String c rest =>
      if all_newlines s then S (String.length rest) else trailing_newlines rest
  end.

(** [strings.ToUpper] on ASCII letters; other bytes are left as they are. *)
Definition upper_byte (c : ascii) : ascii :=
  let n := N_of_ascii c in
  if ((97 <=? n) && (n <=? 122))%N then ascii_of_N (n - 32) else c.

Fixpoint ToUpper (s : string) : string :=
  match s with
  | EmptyString => EmptyString
  | String c rest => String (upper_byte c) (ToUpper rest)
  end.

(** ** The fragment of package fmt that flog reaches *)

Module Fmt.

(** Operands of a formatting call: the dynamic values an [interface{}]
    holds here.  [VSlice] is a [[]interface{}]. *)
Inductive value : Type :=
| VString (s : string)
| VInt (z : Z)
| VSlice (l : list value).

(** A variadic parameter [v ...interface{}]: [None] is the nil slice of a
    call without arguments, [Some l] a slice that is not nil. *)
Definition slice : Type := option (list value).

Definition itoa (z : Z) : string := NilZero.string_of_int (Z.to_int z).

Definition is_verb (c : ascii) : bool :=
  Ascii.eqb c "v" || Ascii.eqb c "s" || Ascii.eqb c "d".

Definition bad_verb (c : ascii) (ty operand : string) : string :=
  "%!" ++ String c ("(" ++ ty ++ "=" ++ operand ++ ")").

(** [printValue]: one operand under verb [c] ([v], [s] or [d]).  A slice
    prints its elements under the same verb, between brackets. *)
Fixpoint printValue (c : ascii) (a : value) : string :=
  match a with
  | VString s => if Ascii.eqb c "d" then bad_verb c "string" s else s
  | VInt z => if Ascii.eqb c "s" then bad_verb c "int" (itoa z) else itoa z
  | VSlice l =>
      let fix elems (first : bool) (l : list value) : string :=
        match l with
        | [] => ""
        | x :: l' => (if first then "" else " ") ++ printValue c x ++ elems false l'
        end in
      "[" ++ elems true l ++ "]"
  end.

Definition type_name (a : value) : string :=
  match a with
  | VString _ => "string"
  | VInt _ => "int"
  | VSlice _ => "[]interface {}"
  end.

Fixpoint extra_list (first : bool) (l : list value) : string :=
  match l with
  | [] => ""
  | a :: l' =>
      (if first then "" else ", ")
        ++ type_name a ++ "=" ++ printValue "v" a ++ extra_list false l'
  end.

(** Operands left over when the format is exhausted. *)
Definition extra (l : list value) : string :=
  match l with
  | [] => ""
  | _ => "%!(EXTRA " ++ extra_list true l ++ ")"
  end.

(** [fmt.Sprintf] for the directives [%%], [%v], [%s], [%d] without flags,
    width or precision; [None] on any other directive. *)
Fixpoint Sprintf (format : string) (a : list value) : option string :=
  match format with
  | EmptyString => Some (extra a)
  | String c rest =>
      if Ascii.eqb c "%" then
        match rest with
        | EmptyString => Some ("%!(NOVERB)" ++ extra a)
        | String d rest' =>
            if Ascii.eqb d "%" then option_map (String "%") (Sprintf rest' a)
            else if is_verb d then
              match a with
              | [] => option_map (append ("%!" ++ String d "(MISSING)")) (Sprintf rest' [])
              | x :: a' => option_map (append (printValue d x)) (Sprintf rest' a')
              end
            else None
        end
      else option_map (String c) (Sprintf rest a)
  end.

(** [fmt.Sprint] of a single string operand is that string. *)
Definition Sprint (s : string) : string := s.

End Fmt.
Import Fmt.


(** ** The fragment of package log that flog reaches *)

Module Log.

Definition Ldate : Z := 1.
Definition Ltime : Z := 2.
Definition Lmicroseconds : Z := 4.
Definition Llongfile : Z := 8.
Definition Lshortfile : Z := 16.

(** A reading of the wall clock, as [time.Time] gives its parts. *)
Record Time : Type := mkTime {
  year : N; month : N; day : N;
  hour : N; minute : N; second : N;
  nanosecond : N
}.

(** The statement that called the logger: file (last path element) and line. *)
Record site : Type := mkSite { site_file : string; site_line : N }.

Fixpoint zeros (k : nat) : string :=
  match k with
  | O => ""
  | S k' => String "0" (zeros k')
  end.

(** [itoa(buf, i, wid)]: decimal, zero-padded on the left to [wid] digits. *)
Definition itoa (i : N) (wid : nat) : string :=
  let d := NilZero.string_of_uint (N.to_uint i) in
  zeros (wid - String.length d) ++ d.

Definition has (flag bit : Z) : bool := negb (Z.land flag bit =? 0).

(** [formatHeader] of a logger with an empty prefix. *)
Definition formatHeader (flag : Z) (t : Time) (caller : site) : string :=
  (if has flag (Z.lor Ldate (Z.lor Ltime Lmicroseconds)) then
     (if has flag Ldate then
        itoa (year t) 4 ++ "/" ++ itoa (month t) 2 ++ "/" ++ itoa (day t) 2 ++ " "
      else "")
     ++
     (if has flag (Z.lor Ltime Lmicroseconds) then
        itoa (hour t) 2 ++ ":" ++ itoa (minute t) 2 ++ ":" ++ itoa (second t) 2
        ++ (if has flag Lmicroseconds
            then "." ++ itoa (nanosecond t / 1000) 6 else "")
        ++ " "
      else "")
   else "")
  ++
  (if has flag (Z.lor Lshortfile Llongfile) then
     site_file caller ++ ":" ++ itoa (site_line caller) 0 ++ ": "
   else "").

(** [Logger.Output]: the bytes one call writes to the logger's writer: the
    header, the message, and a newline when the message lacks one. *)
Definition Output (flag : Z) (t : Time) (caller : site) (s : string) : string :=
  formatHeader flag t caller ++ s
    ++ (if ends_with_newline s then "" else nl).

End Log.
Import Log.

(** ** flog.go *)

Definition DefaultFlushIntervalSec : Z := 5.

Definition FLogFlags : Z := Z.lor (Z.lor Ldate Lmicroseconds) Lshortfile.

Definition BufferedFile : Z := 0.
Definition DirectFile : Z := 1.

Definition of_option {A : Type} (o : option A) : outcome A :=
  match o with
  | Some a => Ok a
  | None => Unmodelled
  end.

(** [fixFormat]: the index expression [format[len(format)-1]] panics on the
    empty string. *)
Definition fixFormat (name format : string) : outcome string :=
  match last_byte format with
  | None => Panic IndexOutOfRange
  | Some c =>
      if Ascii.eqb c newline
      then of_option (Sprintf "[%s] %s" [VString (ToUpper name); VString format])
      else of_option (Sprintf ("[%s] %s" ++ nl) [VString (ToUpper name); VString format])
  end.

(** An open file: its path, the bytes it holds, and whether the handle is
    still open. *)
Record File : Type := mkFile {
  fpath : string;
  data : string;
  is_open : bool
}.

Definition write (f : File) (bytes : string) : File :=
  mkFile (fpath f) (data f ++ bytes) (is_open f).

Definition close_file (f : File) : File :=
  mkFile (fpath f) (data f) false.

(** Results of the system calls behind one [flushLogs]: whether the write
    issued by [io.Copy] and the [Sync] succeed. *)
Record io_result : Type := mkIO { copy_ok : bool; sync_ok : bool }.

Definition close_marker : string := "==== Close log ====".
Definition init_marker : string := "==== Log init ====".
Definition shutdown_marker : string := "Async log shutdown".

(** ** BufferedLog.go *)

Module BufferedLog.

(** The struct.  [logger] is [log.New(&buffer, "", FLogFlags)]: writing to
    it appends to [buffer].  [chClose] and [lock] carry no data; the
    transition system below gives their synchronisation. *)
Record t : Type := mk {
  baseDir : string;
  buffer : string;
  enabled : Z;
  file : File;
  flushSec : Z;
  name : string
}.

Definition set_buffer (this : t) (b : string) : t :=
  mk (baseDir this) b (enabled this) (file this) (flushSec this) (name this).
Definition set_enabled (this : t) (e : Z) : t :=
  mk (baseDir this) (buffer this) e (file this) (flushSec this) (name this).
Definition set_file (this : t) (f : File) : t :=
  mk (baseDir this) (buffer this) (enabled this) f (flushSec this) (name this).
Definition set_flushSec (this : t) (n : Z) : t :=
  mk (baseDir this) (buffer this) (enabled this) (file this) n (name this).

(** Where the two loggers are called in [print]. *)
Definition std_Print : site := mkSite "BufferedLog.go" 157.
Definition logger_Print : site := mkSite "BufferedLog.go" 158.
Definition std_Printf : site := mkSite "BufferedLog.go" 160.
Definition logger_Printf : site := mkSite "BufferedLog.go" 161.

(** [print]: [t1] and [t2] are the clock readings of the standard logger
    and of [this.logger].  Returns the bytes sent to standard error and the
    logger with the entry appended to its buffer. *)
Definition print (this : t) (format : string) (v : slice) (t1 t2 : Time)
  : outcome (string * t) :=
  format <- fixFormat (name this) format ;;
  match v with
  | None =>
      Ok (Output FLogFlags t1 std_Print (Sprint format),
          set_buffer this
            (buffer this ++ Output FLogFlags t2 logger_Print (Sprint format)))
  | Some a =>
      s <- of_option (Sprintf format a) ;;
      Ok (Output FLogFlags t1 std_Printf s,
          set_buffer this (buffer this ++ Output FLogFlags t2 logger_Printf s))
  end.

Definition Print (this : t) (format : string) (v : slice) (t1 t2 : Time)
  : outcome (string * t) :=
  if enabled this <? 1 then Ok ("", this)
  else match v with
       | None => print this format None t1 t2
       | Some a => print this format (Some a) t1 t2      (* v... *)
       end.

Definition Disable (this : t) : t := set_enabled this 0.
Definition Enable (this : t) : t := set_enabled this 1.
Definition FlushIntervalSec (this : t) : Z := flushSec this.
Definition SetFlushIntervalSec (this : t) (interval : Z) : t :=
  set_flushSec this interval.

(** [flushLogs]: [io.Copy] hands the whole buffer to the file in one write
    (none when the buffer is empty) and empties it; then [Sync].  Either
    error panics. *)
Definition flushLogs (this : t) (io : io_result) : outcome t :=
  this <- (if String.eqb (buffer this) "" then Ok this
           else if is_open (file this) && copy_ok io
                then Ok (set_buffer (set_file this (write (file this) (buffer this))) "")
                else Panic IOError) ;;
  if is_open (file this) && sync_ok io then Ok this else Panic IOError.

End BufferedLog.

(** ** DirectLog.go *)

Module DirectLog.

(** [logger] is [log.New(file, "", FLogFlags)]: writing to it writes to the
    file. *)
Record t : Type := mk {
  baseDir : string;
  enabled : Z;
  file : File;
  name : string
}.

Definition set_enabled (this : t) (e : Z) : t :=
  mk (baseDir this) e (file this) (name this).
Definition set_file (this : t) (f : File) : t :=
  mk (baseDir this) (enabled this) f (name this).

Definition std_Print : site := mkSite "DirectLog.go" 98.
Definition logger_Print : site := mkSite "DirectLog.go" 99.
Definition std_Printf : site := mkSite "DirectLog.go" 101.
Definition logger_Printf : site := mkSite "DirectLog.go" 102.

(** The logger's write to the file; its error is dropped by [log.Logger]'s
    callers, so a failed write ([wok = false], or a closed handle) leaves
    the file as it was. *)
Definition logger_write (this : t) (wok : bool) (bytes : string) : t :=
  if is_open (file this) && wok then set_file this (write (file this) bytes)
  else this.

(** [print]: the operands reach [Printf] as [v], one operand, not [v...]. *)
Definition print (this : t) (format : string) (v : slice) (t1 t2 : Time)
  (wok : bool) : outcome (string * t) :=
  format <- fixFormat (name this) format ;;
  match v with
  | None =>
      Ok (Output FLogFlags t1 std_Print (Sprint format),
          logger_write this wok (Output FLogFlags t2 logger_Print (Sprint format)))
  | Some a =>
      s <- of_option (Sprintf format [VSlice a]) ;;
      Ok (Output FLogFlags t1 std_Printf s,
          logger_write this wok (Output FLogFlags t2 logger_Printf s))
  end.

(** [Print]: a non-nil [v] is passed on as [v], one operand, not [v...]. *)
Definition Print (this : t) (format : string) (v : slice) (t1 t2 : Time)
  (wok : bool) : outcome (string * t) :=
  if enabled this <? 1 then Ok ("", this)
  else match v with
       | None => print this format None t1 t2 wok
       | Some a => print this format (Some [VSlice a]) t1 t2 wok
       end.

Definition Disable (this : t) : t := set_enabled this 0.
Definition Enable (this : t) : t := set_enabled this 1.

(** [Close]: the results of [Sync] and [Close] are dropped. *)
Definition Close (this : t) (t1 t2 : Time) (wok : bool) : outcome (string * t) :=
  let this := set_enabled this 0 in
  r <- print this close_marker None t1 t2 wok ;;
  let '(err, this) := r in
  Ok (err, set_file this (close_file (file this))).

End DirectLog.

(** ** The factory *)

(** What the operating system answers: whether [os.MkdirAll] succeeds on a
    path, and, for [os.OpenFile] with [FLogOpenFlags] (read-write, append,
    create), the bytes already in the file ([None]: the open fails). *)
Record FileSystem : Type := mkFS {
  MkdirAll : string -> bool;
  OpenFile : string -> option string
}.

(** [path.Join] of two elements, without the cleaning of the result. *)
Definition path_Join (a b : string) : string :=
  if String.eqb a "" then b else a ++ "/" ++ b.

Definition mkdir (fs : FileSystem) (path : string) : outcome unit :=
  if MkdirAll fs path then Ok tt else Panic IOError.

(** A non-nil value of the interface [FLog]. *)
Inductive FLog : Type :=
| Buffered (b : BufferedLog.t)
| Direct (d : DirectLog.t).

(** A method call [l.Print(format, v...)] through the interface; [None] is
    the nil interface. *)
Definition FLog_Print (l : option FLog) (format : string) (v : slice)
  (t1 t2 : Time) (wok : bool) : outcome (string * FLog) :=
  match l with
  | None => Panic NilDereference
  | Some (Buffered b) =>
      r <- BufferedLog.Print b format v t1 t2 ;;
      Ok (fst r, Buffered (snd r))
  | Some (Direct d) =>
      r <- DirectLog.Print d format v t1 t2 wok ;;
      Ok (fst r, Direct (snd r))
  end.

(** [New].  The result is the bytes sent to standard error and the interface
    value returned ([None]: nil).  For a [BufferedLog] the goroutine
    [asyncFlush] has been started; [start] below is the system it runs in. *)
Definition New (fs : FileSystem) (name logPath : string) (logType : Z)
  (t1 t2 : Time) (wok : bool) : outcome (string * option FLog) :=
  _ <- mkdir fs logPath ;;
  let p := path_Join logPath (name ++ ".log") in
  match OpenFile fs p with
  | None => Ok ("", None)
  | Some bytes =>
      let f := mkFile p bytes true in
      let newLog :=
        if logType =? BufferedFile then
          Some (Buffered (BufferedLog.mk logPath "" 1 f DefaultFlushIntervalSec name))
        else if logType =? DirectFile then
          Some (Direct (DirectLog.mk logPath 1 f name))
        else None in
      r <- FLog_Print newLog init_marker None t1 t2 wok ;;
      Ok (fst r, Some (snd r))
  end.

(** ** The buffered logger and its goroutine as a transition system *)

Definition in_int32 (n : Z) : bool := (-2147483648 <=? n) && (n <=? 2147483647).

(** [time.Duration(flushSec) * time.Second], in nanoseconds. *)
Definition Duration (flushSec : Z) : Z := flushSec * 1000000000.

(** Where the caller of [Close] stands: before the statement named, holding
    the write lock from [AtDisable] to [AtFileClose]. *)
Inductive closer_pc : Type :=
| Idle            (* no Close in progress, none completed *)
| AtDisable       (* this.enabled = 0 *)
| AtMark          (* this.print("==== Close log ====") *)
| AtSend          (* this.chClose <- nil *)
| AtRecv          (* <-this.chClose *)
| AtFlush         (* this.flushLogs() *)
| AtFileClose     (* this.file.Close() *)
| Returned.       (* Close has returned *)

(** Where [asyncFlush] stands. *)
Inductive task_pc : Type :=
| AtLoad                  (* flushSec := atomic.LoadInt32(&this.flushSec) *)
| AtSelect (d : Z)        (* in select, with a timer of d nanoseconds *)
| AtFlushLogs             (* timer case: this.flushLogs() *)
| AtShutdownMark          (* close case: run = false; this.print(...) *)
| AtAck                   (* after the loop: this.chClose <- nil *)
| Done.                   (* asyncFlush has returned *)

Record system : Type := mkSystem {
  log : BufferedLog.t;
  stderr : string;
  closer : closer_pc;
  task : task_pc;
  crashed : option panic
}.

Definition set_log (s : system) (b : BufferedLog.t) : system :=
  mkSystem b (stderr s) (closer s) (task s) (crashed s).
Definition set_closer (s : system) (c : closer_pc) : system :=
  mkSystem (log s) (stderr s) c (task s) (crashed s).
Definition set_task (s : system) (k : task_pc) : system :=
  mkSystem (log s) (stderr s) (closer s) k (crashed s).
Definition crash (s : system) (p : panic) : system :=
  mkSystem (log s) (stderr s) (closer s) (task s) (Some p).

(** The system right after [go bLog.asyncFlush()]. *)
Definition start (b : BufferedLog.t) (err : string) : system :=
  mkSystem b err Idle AtLoad None.

(** One atomic action.  [Call...] are calls of the public methods by any
    goroutine; [Close...] the statements of one call of [Close]; [Task...]
    those of [asyncFlush].  [Shutdown] and [Ack] are the two communications
    on the unbuffered channel [chClose], each a send and its receive. *)
Inductive label : Type :=
| CallPrint (format : string) (v : slice) (t1 t2 : Time)
| CallEnable
| CallDisable
| CallSetFlushIntervalSec (interval : Z)
| CloseLock
| CloseDisable
| CloseMark (t1 t2 : Time)
| Shutdown
| CloseFlush (io : io_result)
| CloseFile
| TaskLoad
| TaskTimer
| TaskFlush (io : io_result)
| TaskMark (t1 t2 : Time)
| Ack.

Definition lock_free (c : closer_pc) : bool :=
  match c with
  | Idle | Returned => true
  | _ => false
  end.

(** A [print] inside the system: a panic takes the process down. *)
Definition do_print (s : system) (r : outcome (string * BufferedLog.t))
  (k : system -> system) : option system :=
  match r with
  | Ok (err, b) => Some (k (mkSystem b (stderr s ++ err) (closer s) (task s) (crashed s)))
  | Panic p => Some (crash s p)
  | Unmodelled => None
  end.

Definition do_flush (s : system) (r : outcome BufferedLog.t)
  (k : system -> system) : option system :=
  match r with
  | Ok b => Some (k (set_log s b))
  | Panic p => Some (crash s p)
  | Unmodelled => None
  end.

(** [exec s l]: the system after action [l], [None] when [l] cannot happen
    in [s] (wrong place in the code, lock held, no partner on the channel,
    process already down). *)
Definition exec (s : system) (l : label) : option system :=
  match crashed s with
  | Some _ => None
  | None =>
    match l with
    | CallPrint format v t1 t2 =>
        if lock_free (closer s)
        then do_print s (BufferedLog.Print (log s) format v t1 t2) (fun s => s)
        else None
    | CallEnable => Some (set_log s (BufferedLog.Enable (log s)))
    | CallDisable => Some (set_log s (BufferedLog.Disable (log s)))
    | CallSetFlushIntervalSec n =>
        if in_int32 n
        then Some (set_log s (BufferedLog.SetFlushIntervalSec (log s) n))
        else None
    | CloseLock =>
        if lock_free (closer s) then Some (set_closer s AtDisable) else None
    | CloseDisable =>
        match closer s with
        | AtDisable =>
            Some (set_closer (set_log s (BufferedLog.set_enabled (log s) 0)) AtMark)
        | _ => None
        end
    | CloseMark t1 t2 =>
        match closer s with
        | AtMark =>
            do_print s (BufferedLog.print (log s) close_marker None t1 t2)
                     (fun s => set_closer s AtSend)
        | _ => None
        end
    | Shutdown =>
        match closer s, task s with
        | AtSend, AtSelect _ => Some (set_task (set_closer s AtRecv) AtShutdownMark)
        | _, _ => None
        end
    | TaskMark t1 t2 =>
        match task s with
        | AtShutdownMark =>
            do_print s (BufferedLog.print (log s) shutdown_marker None t1 t2)
                     (fun s => set_task s AtAck)
        | _ => None
        end
    | Ack =>
        match closer s, task s with
        | AtRecv, AtAck => Some (set_task (set_closer s AtFlush) Done)
        | _, _ => None
        end
    | CloseFlush io =>
        match closer s with
        | AtFlush =>
            do_flush s (BufferedLog.flushLogs (log s) io)
                     (fun s => set_closer s AtFileClose)
        | _ => None
        end
    | CloseFile =>
        match closer s with
        | AtFileClose =>
            Some (set_closer
                    (set_log s (BufferedLog.set_file (log s)
                                  (close_file (BufferedLog.file (log s)))))
                    Returned)
        | _ => None
        end
    | TaskLoad =>
        match task s with
        | AtLoad => Some (set_task s (AtSelect (Duration (BufferedLog.flushSec (log s)))))
        | _ => None
        end
    | TaskTimer =>
        match task s with
        | AtSelect _ => Some (set_task s AtFlushLogs)
        | _ => None
        end
    | TaskFlush io =>
        match task s with
        | AtFlushLogs =>
            do_flush s (BufferedLog.flushLogs (log s) io) (fun s => set_task s AtLoad)
        | _ => None
        end
    end
  end.

Fixpoint run (s : system) (ls : list label) : option system :=
  match ls with
  | [] => Some s
  | l :: ls' =>
      match exec s l with
      | Some s' => run s' ls'
      | None => None
      end
  end.

(** ** Sample inputs *)

Definition noon : Time := mkTime 2014 3 1 12 0 0 0.
Definition later : Time := mkTime 2014 3 1 12 0 1 500000.
Definition io_ok : io_result := mkIO true true.

(** A file system where everything succeeds and the log file is new. *)
Definition fs_fresh : FileSystem := mkFS (fun _ => true) (fun _ => Some "").
(** A file system where the directory cannot be created. *)
Definition fs_no_dir : FileSystem := mkFS (fun _ => false) (fun _ => Some "").
(** A file system where the log file cannot be opened. *)
Definition fs_no_file : FileSystem := mkFS (fun _ => true) (fun _ => None).

Definition sample_file : File := mkFile "logs/app.log" "" true.
Definition sample_buffered : BufferedLog.t :=
  BufferedLog.mk "logs" "" 1 sample_file DefaultFlushIntervalSec "app".
Definition sample_direct : DirectLog.t :=
  DirectLog.mk "logs" 1 sample_file "app".

(** The message [BufferedLog.print] hands to its loggers. *)
Definition message (name format : string) (v : slice) : outcome string :=
  format <- fixFormat name format ;;
  match v with
  | None => Ok (Sprint format)
  | Some a => of_option (Sprintf format a)
  end.

(** ** Vocabulary of the properties *)

(** The bytes [BufferedLog.print] appends to the buffer for one entry; empty
    when the call appends nothing. *)
Definition line (name format : string) (v : slice) (t : Time) : string :=
  match message name format v with
  | Ok m =>
      Output FLogFlags t
        (match v with
         | None => BufferedLog.logger_Print
         | Some _ => BufferedLog.logger_Printf
         end) m
  | _ => ""
  end.

(** Everything logged so far: the bytes on disk, then the bytes pending. *)
Definition logged_bytes (b : BufferedLog.t) : string :=
  data (BufferedLog.file b) ++ BufferedLog.buffer b.

(** The bytes action [l] appends to the buffer when it happens in [s]. *)
Definition entry_of (s : system) (l : label) : string :=
  match l with
  | CallPrint format v _ t2 =>
      if BufferedLog.enabled (log s) <? 1 then ""
      else line (BufferedLog.name (log s)) format v t2
  | CloseMark _ t2 => line (BufferedLog.name (log s)) close_marker None t2
  | TaskMark _ t2 => line (BufferedLog.name (log s)) shutdown_marker None t2
  | _ => ""
  end.


(** [asyncFlush] is in its loop. *)
Definition in_loop (k : task_pc) : bool :=
  match k with
  | AtLoad | AtSelect _ | AtFlushLogs => true
  | _ => false
  end.

(** A logger in service: no [Close] yet, the goroutine in its loop. *)
Definition running (s : system) : Prop :=
  closer s = Idle /\ in_loop (task s) = true /\ crashed s = None
  /\ is_open (BufferedLog.file (log s)) = true.



Definition is_set_interval (l : label) : bool :=
  match l with
  | CallSetFlushIntervalSec _ => true
  | _ => false
  end.



(** A shutdown of the sample logger: the goroutine enters its wait, then
    [Close] runs to its last statement but one. *)
Definition sample_close : list label :=
  [TaskLoad; CloseLock; CloseDisable; CloseMark noon noon; Shutdown;
   TaskMark later later; Ack; CloseFlush io_ok].

Definition after (s : system) (ls : list label) : system :=
  match run s ls with
  | Some s' => s'
  | None => s
  end.

(** The two communications on [chClose], read off the place of [Close]:
    past its receive, the send and the acknowledgment are behind it, in this
    order, and the goroutine has returned. *)
Definition handshake (ls : list label) (s : system) : Prop :=
  match closer s with
  | AtRecv => exists a b, ls = (a ++ Shutdown :: b)%list
  | AtFlush | AtFileClose | Returned =>
      task s = Done
      /\ exists a b c, ls = (a ++ Shutdown :: b ++ Ack :: c)%list
  | _ => True
  end.

(** Calls made after [Close] has returned. *)
Definition sample_late : list label :=
  [CallEnable; CallPrint "late" None later later; CallSetFlushIntervalSec 1].

(** The sample logger with its goroutine waiting. *)
Definition sample_waiting : system := after (start sample_buffered "") [TaskLoad].



(** ** Rotate *)

(** The operating system as [Rotate] sees it: the file system of [New], and
    whether [os.Rename] of one path to another succeeds. *)
Record OS : Type := mkOS {
  os_fs : FileSystem;
  Rename : string -> string -> bool
}.

(** The file name of the archive: year, month and day of [now] under [%d]
    each, a dash, the name, [.log]. *)
Definition archive_name (now : Time) (name : string) : option string :=
  Sprintf "%d%d%d-%s.log"
    [VInt (Z.of_N (year now)); VInt (Z.of_N (month now));
     VInt (Z.of_N (day now)); VString name].

(** How a call of [Rotate] ends: it returns an interface value ([None]:
    nil), together with the bytes sent to standard error, or it panics; the
    type assertion of a nil [newLog] to a pointer to [BufferedLog] is a
    panic of its own kind. *)
Inductive rotate_outcome : Type :=
| Rotated (err : string) (l : option FLog)
| RotatePanic (p : panic)
| RotateNilConversion
| RotateUnmodelled.

Definition FLog_BaseDir (l : FLog) : string :=
  match l with
  | Buffered b => BufferedLog.baseDir b
  | Direct d => DirectLog.baseDir d
  end.

Definition FLog_Name (l : FLog) : string :=
  match l with
  | Buffered b => BufferedLog.name b
  | Direct d => DirectLog.name d
  end.

(** [Rotate] from the statement after [log.Close()] on: [l] is the logger
    as [Close] left it, [now] the clock read by [Rotate], [t1 t2 wok] those
    of the init marker printed by [New]. *)
Definition Rotate_after_Close (os : OS) (l : FLog) (now t1 t2 : Time)
  (wok : bool) : rotate_outcome :=
  let mkPath := path_Join (FLog_BaseDir l) "old" in
  match mkdir (os_fs os) mkPath with
  | Panic p => RotatePanic p
  | Unmodelled => RotateUnmodelled
  | Ok _ =>
    match archive_name now (FLog_Name l) with
    | None => RotateUnmodelled
    | Some file_name =>
      let newPath := path_Join mkPath file_name in
      let oldPath := path_Join (FLog_BaseDir l) (FLog_Name l ++ ".log") in
      if Rename os oldPath newPath then
        match l with
        | Buffered bLog =>
            match New (os_fs os) (FLog_Name l) (FLog_BaseDir l) BufferedFile
                      t1 t2 wok with
            | Ok (err, Some (Buffered b)) =>
                Rotated err
                  (Some (Buffered
                           (BufferedLog.SetFlushIntervalSec b
                              (BufferedLog.FlushIntervalSec bLog))))
            | Ok (err, _) => RotateNilConversion
            | Panic p => RotatePanic p
            | Unmodelled => RotateUnmodelled
            end
        | Direct _ =>
            match New (os_fs os) (FLog_Name l) (FLog_BaseDir l) DirectFile
                      t1 t2 wok with
            | Ok (err, newLog) => Rotated err newLog
            | Panic p => RotatePanic p
            | Unmodelled => RotateUnmodelled
            end
        end
      else RotatePanic IOError
    end
  end.

(** [Rotate] of a [DirectLog]: [c1 c2 cok] are the clock readings and the
    write result of the close marker. *)
Definition Rotate_direct (os : OS) (d : DirectLog.t) (c1 c2 : Time) (cok : bool)
  (now t1 t2 : Time) (wok : bool) : rotate_outcome :=
  match DirectLog.Close d c1 c2 cok with
  | Ok (err, d') =>
      match Rotate_after_Close os (Direct d') now t1 t2 wok with
      | Rotated err' l => Rotated (err ++ err') l
      | r => r
      end
  | Panic p => RotatePanic p
  | Unmodelled => RotateUnmodelled
  end.

(** ** More vocabulary *)

(** Actions that neither enable the logger nor print a marker. *)
Definition quiet (l : label) : bool :=
  match l with
  | CallPrint _ _ _ _ | CallDisable | CallSetFlushIntervalSec _
  | TaskLoad | TaskTimer | TaskFlush _ => true
  | _ => false
  end.

(** The operands as [DirectLog.Print] and [DirectLog.print] hand them on:
    the whole list as one operand, twice. *)
Definition wrapped (v : slice) : slice :=
  match v with
  | None => None
  | Some a => Some [VSlice [VSlice a]]
  end.

(** The bytes [DirectLog.print] writes to the file for one entry. *)
Definition direct_line (name format : string) (v : slice) (t : Time) : string :=
  match message name format (wrapped v) with
  | Ok m =>
      Output FLogFlags t
        (match v with
         | None => DirectLog.logger_Print
         | Some _ => DirectLog.logger_Printf
         end) m
  | _ => ""
  end.

(** An operating system where every call succeeds and files are new. *)
Definition os_fresh : OS := mkOS fs_fresh (fun _ _ => true).

Definition is_CloseFile (l : label) : bool :=
  match l with
  | CloseFile => true
  | _ => false
  end.

(** How many times [Close] has returned in a run. *)
Definition returns (ls : list label) : nat :=
  List.length (filter is_CloseFile ls).

(** [Close] returns at most once: what the place of [Close] tells about the
    returns so far. *)
Definition once (ls : list label) (s : system) : Prop :=
  match closer s with
  | AtRecv => returns ls = O
  | AtFlush | AtFileClose => task s = Done /\ returns ls = O
  | Returned => task s = Done /\ (returns ls <= 1)%nat
  | _ => (in_loop (task s) = true -> returns ls = O) /\ (returns ls <= 1)%nat
  end.

(** After [Close] has returned: the goroutine is gone and a later [Close]
    gets no further than its send. *)
Definition closed_for_good (s : system) : Prop :=
  task s = Done
  /\ match closer s with
     | Returned | AtDisable | AtMark | AtSend => True
     | _ => False
     end.

(** The sample logger, disabled. *)
Definition sample_disabled : system :=
  mkSystem (BufferedLog.Disable sample_buffered) "" Idle AtLoad None.

Definition sample_quiet : list label :=
  [CallPrint "dropped" None noon noon; CallPrint "" None noon noon;
   TaskLoad; TaskTimer; TaskFlush io_ok; CallSetFlushIntervalSec 2].

(** An operating system where no file can be renamed, and one where the log
    file cannot be opened. *)
Definition os_no_rename : OS := mkOS fs_fresh (fun _ _ => false).
Definition os_no_file : OS := mkOS fs_no_file (fun _ _ => true).

(** * Properties *)

(** ** Strings *)

Lemma append_empty_r (s : string) : s ++ "" = s.
Proof. induction s as [|c s IH]; simpl; [reflexivity | now rewrite IH]. Qed.

Lemma append_assoc (a b c : string) : (a ++ b) ++ c = a ++ b ++ c.
Proof. induction a as [|x a IH]; simpl; [reflexivity | now rewrite IH]. Qed.

Lemma length_append (a b : string) :
  String.length (a ++ b) = (String.length a + String.length b)%nat.
Proof. induction a as [|x a IH]; simpl; [reflexivity | now rewrite IH]. Qed.

Lemma last_byte_append_cons (a : string) (c : ascii) (b : string) :
  last_byte (a ++ String c b) = last_byte (String c b).
Proof.
  induction a as [|x a IH]; [reflexivity|].
  change (last_byte (String x (a ++ String c b)) = last_byte (String c b)).
  destruct a as [|y a']; simpl in *; exact IH.
Qed.

Lemma ends_with_newline_append (a b : string) :
  b <> "" -> ends_with_newline (a ++ b) = ends_with_newline b.
Proof.
  destruct b as [|c b]; [congruence|]. intros _.
  unfold ends_with_newline. now rewrite last_byte_append_cons.
Qed.

Lemma ends_with_newline_snoc (a : string) : ends_with_newline (a ++ nl) = true.
Proof.
  unfold nl. rewrite ends_with_newline_append by discriminate. reflexivity.
Qed.

Lemma last_byte_nonempty (s : string) : s <> "" -> exists c, last_byte s = Some c.
Proof.
  induction s as [|x s IH]; [congruence|]. intros _.
  destruct s as [|y s']; [now exists x|].
  destruct IH as [c Hc]; [discriminate|]. exists c. exact Hc.
Qed.

Lemma all_newlines_append (a b : string) :
  all_newlines (a ++ b) = all_newlines a && all_newlines b.
Proof.
  induction a as [|x a IH]; simpl; [reflexivity|].
  rewrite IH. now rewrite andb_assoc.
Qed.

Lemma all_newlines_ends (s : string) :
  s <> "" -> all_newlines s = true -> ends_with_newline s = true.
Proof.
  induction s as [|x s IH]; [congruence|]. intros _ H.
  simpl in H. apply andb_prop in H. destruct H as [Hx Hs].
  destruct s as [|y s']; [exact Hx|].
  change (String x (String y s')) with (String x "" ++ String y s').
  rewrite ends_with_newline_append by discriminate.
  apply IH; [discriminate | exact Hs].
Qed.

Lemma trailing_newlines_snoc (s : string) :
  trailing_newlines (s ++ nl) = S (trailing_newlines s).
Proof.
  induction s as [|x s IH]; [reflexivity|].
  change (trailing_newlines (String x (s ++ nl))
          = S (trailing_newlines (String x s))).
  cbn [trailing_newlines].
  change (all_newlines (String x (s ++ nl)))
    with (Ascii.eqb x newline && all_newlines (s ++ nl)).
  change (all_newlines (String x s)) with (Ascii.eqb x newline && all_newlines s).
  rewrite all_newlines_append. change (all_newlines nl) with true.
  rewrite andb_true_r.
  destruct (Ascii.eqb x newline && all_newlines s).
  - rewrite length_append. simpl. f_equal. lia.
  - exact IH.
Qed.

Lemma trailing_newlines_none (s : string) :
  ends_with_newline s = false -> trailing_newlines s = O.
Proof.
  induction s as [|x s IH]; [reflexivity|]. intros H.
  cbn [trailing_newlines].
  destruct (all_newlines (String x s)) eqn:Hall.
  - rewrite all_newlines_ends in H; [discriminate | discriminate | exact Hall].
  - destruct s as [|y s']; [reflexivity|].
    apply IH.
    change (String x (String y s')) with (String x "" ++ String y s') in H.
    now rewrite ends_with_newline_append in H by discriminate.
Qed.

Lemma trailing_newlines_some (s : string) :
  ends_with_newline s = true -> (1 <= trailing_newlines s)%nat.
Proof.
  induction s as [|x s IH]; [discriminate|]. intros H.
  cbn [trailing_newlines].
  destruct (all_newlines (String x s)) eqn:Hall; [lia|].
  destruct s as [|y s'].
  - unfold ends_with_newline in H. simpl in H, Hall.
    rewrite H in Hall. discriminate.
  - apply IH.
    change (String x (String y s')) with (String x "" ++ String y s') in H.
    now rewrite ends_with_newline_append in H by discriminate.
Qed.

Lemma not_all_newlines (p : string) (c : ascii) :
  last_byte p = Some c -> c <> newline -> all_newlines p = false.
Proof.
  intros Hl Hc. destruct (all_newlines p) eqn:Hall; [|reflexivity].
  assert (Hne : p <> "") by (destruct p; [discriminate | discriminate]).
  pose proof (all_newlines_ends p Hne Hall) as He.
  unfold ends_with_newline in He. rewrite Hl in He.
  apply Ascii.eqb_eq in He. contradiction.
Qed.

Lemma trailing_newlines_after (p x : string) (c : ascii) :
  last_byte p = Some c -> c <> newline ->
  trailing_newlines (p ++ x) = trailing_newlines x.
Proof.
  induction p as [|a p IH]; [discriminate|]. intros Hl Hc.
  change (trailing_newlines (String a (p ++ x)) = trailing_newlines x).
  cbn [trailing_newlines].
  change (String a (p ++ x)) with (String a p ++ x).
  rewrite all_newlines_append, (not_all_newlines _ _ Hl Hc). cbn [andb].
  destruct p as [|b p']; [reflexivity|].
  apply IH; [exact Hl | exact Hc].
Qed.

(** ** fixFormat *)

Lemma Sprintf_fix (u format : string) :
  Sprintf "[%s] %s" [VString u; VString format]
  = Some ("[" ++ u ++ "] " ++ format).
Proof. cbn. now rewrite append_empty_r. Qed.

Lemma Sprintf_fix_nl (u format : string) :
  Sprintf ("[%s] %s" ++ nl) [VString u; VString format]
  = Some ("[" ++ u ++ "] " ++ format ++ nl).
Proof. reflexivity. Qed.

Lemma fixFormat_eq (name format : string) :
  format <> "" ->
  fixFormat name format
  = Ok ("[" ++ ToUpper name ++ "] " ++ format
          ++ (if ends_with_newline format then "" else nl)).
Proof.
  intros Hne. destruct (last_byte_nonempty format Hne) as [c Hc].
  unfold fixFormat, ends_with_newline. rewrite Hc.
  destruct (Ascii.eqb c newline).
  - rewrite Sprintf_fix, append_empty_r. reflexivity.
  - rewrite Sprintf_fix_nl. reflexivity.
Qed.

Lemma prefix_last (u : string) : last_byte ("[" ++ u ++ "] ") = Some " "%char.
Proof.
  change ("[" ++ u ++ "] ") with (String "[" u ++ String "]" " ").
  now rewrite last_byte_append_cons.
Qed.

Lemma fixed_format_newlines (u format : string) :
  format <> "" ->
  let s := "[" ++ u ++ "] " ++ format
             ++ (if ends_with_newline format then "" else nl) in
  ends_with_newline s = true
  /\ trailing_newlines s = Nat.max 1 (trailing_newlines format).
Proof.
  intros Hne s. subst s.
  assert (Hsp : " "%char <> newline) by discriminate.
  replace ("[" ++ u ++ "] " ++ format
             ++ (if ends_with_newline format then "" else nl))
    with (("[" ++ u ++ "] ") ++ format
             ++ (if ends_with_newline format then "" else nl))
    by (cbn; now rewrite append_assoc).
  rewrite (trailing_newlines_after _ _ _ (prefix_last _) Hsp).
  destruct (ends_with_newline format) eqn:He.
  - rewrite append_empty_r. split.
    + rewrite ends_with_newline_append by exact Hne. exact He.
    + pose proof (trailing_newlines_some _ He). lia.
  - split.
    + rewrite ends_with_newline_append.
      * apply ends_with_newline_snoc.
      * destruct format; discriminate.
    + rewrite trailing_newlines_snoc, (trailing_newlines_none _ He). reflexivity.
Qed.

(** C6, as the code has it.  For every name and every non-empty template,
    [fixFormat] returns the tag, the template, and one newline appended
    exactly when the template itself (before any operand is expanded) does
    not end in one.  The result always ends in a newline, and it has as many
    trailing newlines as the template, or one when the template has none. *)
Theorem fixFormat_trailing_newline (name format : string) :
  format <> "" ->
  exists s,
    fixFormat name format = Ok s
    /\ s = "[" ++ ToUpper name ++ "] " ++ format
             ++ (if ends_with_newline format then "" else nl)
    /\ ends_with_newline s = true
    /\ trailing_newlines s = Nat.max 1 (trailing_newlines format).
Proof.
  intros Hne. eexists. split; [apply fixFormat_eq; exact Hne|].
  split; [reflexivity|].
  exact (fixed_format_newlines (ToUpper name) format Hne).
Qed.

Lemma fixFormat_trailing_newline_witness :
  exists s,
    fixFormat "app" "x" = Ok s
    /\ s = "[" ++ ToUpper "app" ++ "] " ++ "x"
             ++ (if ends_with_newline "x" then "" else nl)
    /\ ends_with_newline s = true
    /\ trailing_newlines s = Nat.max 1 (trailing_newlines "x").
Proof. apply (fixFormat_trailing_newline "app" "x"). discriminate. Defined.

(** C6 fails as stated: the newline test looks at the template, not at the
    expanded line.  Template ["%s"] with an operand that ends in a newline
    gives a line that ends in two newlines. *)
Lemma message_double_newline :
  message "app" "%s" (Some [VString ("a" ++ nl)]) = Ok ("[APP] a" ++ nl ++ nl)
  /\ trailing_newlines ("[APP] a" ++ nl ++ nl) = 2%nat.
Proof. split; reflexivity. Qed.

(** C8 at the empty template: the index expression [format[len(format)-1]]
    is out of range, so [fixFormat], and with it a [Print] on an enabled
    logger, panics instead of returning. *)
Theorem fixFormat_empty_panics (name : string) :
  fixFormat name "" = Panic IndexOutOfRange
  /\ BufferedLog.Print sample_buffered "" None noon noon = Panic IndexOutOfRange
  /\ DirectLog.Print sample_direct "" None noon noon true = Panic IndexOutOfRange.
Proof. repeat split; reflexivity. Qed.

(** C5 at template ["%s"] with the one operand ["a"]: [BufferedLog.Print]
    expands the operand, [DirectLog.Print] wraps the operand list twice and
    prints [[[a]]]. *)
Theorem Print_direct_differs_from_buffered :
  (exists err b,
      BufferedLog.Print sample_buffered "%s" (Some [VString "a"]) noon noon
      = Ok (err, b)
      /\ BufferedLog.buffer b
         = "2014/03/01 12:00:00.000000 BufferedLog.go:161: [APP] a" ++ nl)
  /\ (exists err d,
      DirectLog.Print sample_direct "%s" (Some [VString "a"]) noon noon true
      = Ok (err, d)
      /\ data (DirectLog.file d)
         = "2014/03/01 12:00:00.000000 DirectLog.go:102: [APP] [[a]]" ++ nl).
Proof. split; eexists; eexists; split; reflexivity. Qed.

(** ** The factory *)

(** C7 fails as stated when the directory cannot be created: [mkdir] panics
    and [New] returns nothing. *)
Lemma New_mkdir_failure_panics :
  MkdirAll fs_no_dir "logs" = false
  /\ New fs_no_dir "app" "logs" BufferedFile noon noon true = Panic IOError
  /\ New fs_no_dir "app" "logs" DirectFile noon noon true = Panic IOError.
Proof. repeat split; reflexivity. Qed.

(** C7, as the code has it.  When the directory is there and the log file
    cannot be opened, [New] returns the nil handle, whatever the kind asked
    for; when the directory cannot be created, [New] panics with the error
    of [os.MkdirAll]. *)
Theorem New_setup_failure (fs : FileSystem) (name logPath : string)
  (logType : Z) (t1 t2 : Time) (wok : bool) :
  (MkdirAll fs logPath = true ->
   OpenFile fs (path_Join logPath (name ++ ".log")) = None ->
   New fs name logPath logType t1 t2 wok = Ok ("", None))
  /\ (MkdirAll fs logPath = false ->
      New fs name logPath logType t1 t2 wok = Panic IOError).
Proof.
  unfold New, mkdir. split.
  - intros Hd Hf. rewrite Hd. cbn [bind]. rewrite Hf. reflexivity.
  - intros Hd. rewrite Hd. reflexivity.
Qed.

Lemma New_setup_failure_witness :
  New fs_no_file "app" "logs" BufferedFile noon noon true = Ok ("", None)
  /\ New fs_no_dir "app" "logs" BufferedFile noon noon true = Panic IOError.
Proof.
  split.
  - apply (New_setup_failure fs_no_file "app" "logs" BufferedFile noon noon true);
      reflexivity.
  - apply (New_setup_failure fs_no_dir "app" "logs" BufferedFile noon noon true);
      reflexivity.
Defined.



(** ** The flush interval *)

(** C9.  [SetFlushIntervalSec] stores any [int32], zero and negative values
    included, without a check; [FlushIntervalSec] right after it returns the
    value stored.  In the running system the call is always possible, never
    panics, and leaves every other field and both goroutines where they
    were. *)
Theorem SetFlushIntervalSec_FlushIntervalSec (s : system) (n : Z) :
  in_int32 n = true ->
  crashed s = None ->
  BufferedLog.FlushIntervalSec (BufferedLog.SetFlushIntervalSec (log s) n) = n
  /\ exists s',
      exec s (CallSetFlushIntervalSec n) = Some s'
      /\ log s' = BufferedLog.SetFlushIntervalSec (log s) n
      /\ BufferedLog.FlushIntervalSec (log s') = n
      /\ crashed s' = None
      /\ closer s' = closer s /\ task s' = task s.
Proof.
  intros Hn Hc. split; [reflexivity|].
  unfold exec. rewrite Hc, Hn. eexists. split; [reflexivity|].
  repeat split; assumption.
Qed.

Lemma SetFlushIntervalSec_FlushIntervalSec_witness :
  BufferedLog.FlushIntervalSec
    (BufferedLog.SetFlushIntervalSec (log (start sample_buffered "")) (-3)) = -3
  /\ exists s',
      exec (start sample_buffered "") (CallSetFlushIntervalSec (-3)) = Some s'
      /\ log s' = BufferedLog.SetFlushIntervalSec (log (start sample_buffered "")) (-3)
      /\ BufferedLog.FlushIntervalSec (log s') = -3
      /\ crashed s' = None
      /\ closer s' = closer (start sample_buffered "")
      /\ task s' = task (start sample_buffered "").
Proof.
  apply (SetFlushIntervalSec_FlushIntervalSec (start sample_buffered "") (-3));
    reflexivity.
Defined.

(** ** What print and flushLogs do to the logger *)

Lemma print_inv (b : BufferedLog.t) (f : string) (v : slice) (t1 t2 : Time)
  (e : string) (b' : BufferedLog.t) :
  BufferedLog.print b f v t1 t2 = Ok (e, b') ->
  b' = BufferedLog.set_buffer b
         (BufferedLog.buffer b ++ line (BufferedLog.name b) f v t2).
Proof.
  unfold BufferedLog.print, line, message.
  destruct (fixFormat (BufferedLog.name b) f) as [f'| |]; cbn [bind];
    [|discriminate|discriminate].
  destruct v as [a|].
  - destruct (Sprintf f' a) as [m|]; cbn [of_option bind]; [|discriminate].
    intros H. inversion H. reflexivity.
  - intros H. inversion H. reflexivity.
Qed.

Lemma Print_inv (b : BufferedLog.t) (f : string) (v : slice) (t1 t2 : Time)
  (e : string) (b' : BufferedLog.t) :
  BufferedLog.Print b f v t1 t2 = Ok (e, b') ->
  b' = BufferedLog.set_buffer b
         (BufferedLog.buffer b
          ++ (if BufferedLog.enabled b <? 1 then ""
              else line (BufferedLog.name b) f v t2)).
Proof.
  unfold BufferedLog.Print. destruct (BufferedLog.enabled b <? 1).
  - intros H. inversion H. subst. rewrite append_empty_r. now destruct b'.
  - destruct v; apply print_inv.
Qed.

Lemma flushLogs_inv (b : BufferedLog.t) (io : io_result) (b' : BufferedLog.t) :
  BufferedLog.flushLogs b io = Ok b' ->
  b' = BufferedLog.set_buffer
         (BufferedLog.set_file b
            (mkFile (fpath (BufferedLog.file b)) (logged_bytes b)
                    (is_open (BufferedLog.file b)))) "".
Proof.
  unfold BufferedLog.flushLogs, logged_bytes.
  destruct (String.eqb (BufferedLog.buffer b) "") eqn:He; cbn [bind].
  - apply String.eqb_eq in He.
    destruct (is_open (BufferedLog.file b) && sync_ok io); [|discriminate].
    intros H. inversion H. subst b'. destruct b as [bd bu en [p d o] fl nm].
    simpl in *. subst bu. now rewrite append_empty_r.
  - destruct (is_open (BufferedLog.file b) && copy_ok io); cbn [bind];
      [|discriminate].
    cbn. destruct (is_open (BufferedLog.file b) && sync_ok io); [|discriminate].
    intros H. inversion H. reflexivity.
Qed.


(** ** The shutdown, step by step *)

Lemma run_app (s : system) (l1 l2 : list label) :
  run s (l1 ++ l2)%list
  = match run s l1 with Some s' => run s' l2 | None => None end.
Proof.
  revert s. induction l1 as [|l l1 IH]; intros s; simpl; [reflexivity|].
  destruct (exec s l); [apply IH | reflexivity].
Qed.


Lemma logged_bytes_print (b : BufferedLog.t) (x : string) :
  logged_bytes (BufferedLog.set_buffer b (BufferedLog.buffer b ++ x))
  = logged_bytes b ++ x.
Proof. unfold logged_bytes. cbn. now rewrite append_assoc. Qed.

Lemma logged_bytes_flush (b : BufferedLog.t) :
  logged_bytes
    (BufferedLog.set_buffer
       (BufferedLog.set_file b
          (mkFile (fpath (BufferedLog.file b)) (logged_bytes b)
                  (is_open (BufferedLog.file b)))) "")
  = logged_bytes b.
Proof. unfold logged_bytes at 1. cbn. apply append_empty_r. Qed.



Ltac unpack :=
  repeat match goal with
         | H : exists _, _ |- _ => destruct H
         | H : _ /\ _ |- _ => destruct H
         end.

Ltac stage_fields :=
  cbn [crashed closer task log stderr set_log set_closer set_task crash
       BufferedLog.name BufferedLog.set_buffer BufferedLog.set_enabled
       BufferedLog.set_file BufferedLog.set_flushSec BufferedLog.file
       BufferedLog.buffer BufferedLog.Enable BufferedLog.Disable
       BufferedLog.SetFlushIntervalSec close_file data is_open] in *.




Lemma exec_alive (s : system) (l : label) (s' : system) :
  exec s l = Some s' -> crashed s = None.
Proof. unfold exec. destruct (crashed s); [discriminate | reflexivity]. Qed.

Lemma marker_print (b : BufferedLog.t) (m : string) (t1 t2 : Time) :
  m <> "" ->
  exists e,
    BufferedLog.print b m None t1 t2
    = Ok (e, BufferedLog.set_buffer b
               (BufferedLog.buffer b ++ line (BufferedLog.name b) m None t2)).
Proof.
  intros Hne. unfold BufferedLog.print, line, message.
  rewrite (fixFormat_eq _ _ Hne). cbn [bind]. eexists. reflexivity.
Qed.


Lemma run_snoc (s : system) (ls : list label) (l : label) (s' : system) :
  run s (ls ++ [l]) = Some s' ->
  exists s1, run s ls = Some s1 /\ exec s1 l = Some s'.
Proof.
  rewrite run_app. destruct (run s ls) as [s1|]; [|discriminate].
  cbn [run]. destruct (exec s1 l) as [s2|] eqn:He; [|discriminate].
  intros H. injection H as <-. now exists s1.
Qed.



(** ** The handshake on chClose *)

Lemma snoc_after_one (a b : list label) (x l : label) :
  ((a ++ x :: b) ++ [l] = a ++ x :: (b ++ [l]))%list.
Proof. now rewrite <- app_assoc. Qed.

Lemma snoc_after_two (a b c : list label) (x y l : label) :
  ((a ++ x :: b ++ y :: c) ++ [l] = a ++ x :: b ++ y :: (c ++ [l]))%list.
Proof. rewrite <- app_assoc. cbn [app]. now rewrite <- app_assoc. Qed.

Ltac handshake_close :=
  stage_fields; try exact I; try discriminate;
  unpack; try discriminate; subst;
  first
    [ solve [eexists; eexists; apply snoc_after_one]
    | solve [split; [assumption || reflexivity
                    | eexists; eexists; eexists; apply snoc_after_two]]
    | solve [eexists; eexists; reflexivity]
    | solve [split; [reflexivity
                    | eexists; eexists; exists []; apply snoc_after_one]]
    | idtac ].

Lemma handshake_step (ls : list label) (s s' : system) (l : label) :
  handshake ls s -> exec s l = Some s' -> handshake (ls ++ [l]) s'.
Proof.
  destruct s as [b e c k cr]. unfold handshake at 1, exec.
  cbn [crashed closer task log].
  destruct cr; [discriminate|]. intros Hst Hex. unfold handshake.
  destruct l.
  - destruct c; cbn [lock_free] in Hex; try discriminate.
    all: destruct (BufferedLog.Print b format v t1 t2) as [[? ?]| |];
      cbn [do_print] in Hex; try discriminate; injection Hex as <-.
    all: handshake_close.
  - injection Hex as <-. destruct c; handshake_close.
  - injection Hex as <-. destruct c; handshake_close.
  - destruct (in_int32 interval); [|discriminate].
    injection Hex as <-. destruct c; handshake_close.
  - destruct c; cbn [lock_free] in Hex; try discriminate.
    all: injection Hex as <-; handshake_close.
  - destruct c; try discriminate. injection Hex as <-. handshake_close.
  - destruct c; try discriminate.
    destruct (BufferedLog.print b close_marker None t1 t2) as [[? ?]| |];
      cbn [do_print] in Hex; try discriminate; injection Hex as <-;
      handshake_close.
  - destruct c; try discriminate. destruct k; try discriminate.
    injection Hex as <-. handshake_close.
  - destruct c; try discriminate.
    destruct (BufferedLog.flushLogs b io) as [?| |];
      cbn [do_flush] in Hex; try discriminate; injection Hex as <-;
      handshake_close.
  - destruct c; try discriminate. injection Hex as <-. handshake_close.
  - destruct k; try discriminate.
    injection Hex as <-; destruct c; handshake_close.
  - destruct k; try discriminate.
    injection Hex as <-; destruct c; handshake_close.
  - destruct k; try discriminate.
    destruct (BufferedLog.flushLogs b io) as [?| |];
      cbn [do_flush] in Hex; try discriminate; injection Hex as <-;
      destruct c; handshake_close.
  - destruct k; try discriminate.
    destruct (BufferedLog.print b shutdown_marker None t1 t2) as [[? ?]| |];
      cbn [do_print] in Hex; try discriminate; injection Hex as <-;
      destruct c; handshake_close.
  - destruct c; try discriminate. destruct k; try discriminate.
    injection Hex as <-. handshake_close.
Qed.

Lemma handshake_run (s : system) (ls : list label) (s' : system) :
  closer s = Idle -> run s ls = Some s' -> handshake ls s'.
Proof.
  intros Hc. revert s'.
  induction ls as [|l ls IH] using rev_ind; intros s' Hrun.
  - injection Hrun as <-. unfold handshake. now rewrite Hc.
  - destruct (run_snoc _ _ _ _ Hrun) as (s1 & Hrun1 & Hex).
    eapply handshake_step; [apply IH; exact Hrun1 | exact Hex].
Qed.

(** Once out of its loop the goroutine never enters it again, and once
    returned it stays so. *)
Lemma task_step (s : system) (l : label) (s' : system) :
  exec s l = Some s' ->
  (in_loop (task s) = false -> in_loop (task s') = false)
  /\ (task s = Done -> task s' = Done).
Proof.
  intros Hex. pose proof (exec_alive _ _ _ Hex) as Hcr.
  unfold exec in Hex. rewrite Hcr in Hex.
  destruct l;
    repeat match type of Hex with
      | context [lock_free ?c] => destruct (lock_free c)
      | context [in_int32 ?n] => destruct (in_int32 n)
      | context [match closer ?a with _ => _ end] => destruct (closer a)
      | context [match task ?a with _ => _ end] => destruct (task a) eqn:?
      | context [do_print _ ?r _] => destruct r as [[? ?]| |]; cbn [do_print] in Hex
      | context [do_flush _ ?r _] => destruct r as [?| |]; cbn [do_flush] in Hex
      end;
    try discriminate; injection Hex as <-; stage_fields;
    try match goal with
        | H : task ?a = _ |- context [task ?a] => rewrite H
        end;
    split; intros; cbn [in_loop] in *;
    first [assumption | discriminate | reflexivity].
Qed.

Lemma Done_run (s : system) (ls : list label) (s' : system) :
  task s = Done -> run s ls = Some s' -> task s' = Done.
Proof.
  revert s. induction ls as [|l ls IH]; intros s Hk Hrun.
  - now injection Hrun as <-.
  - cbn [run] in Hrun. destruct (exec s l) as [s1|] eqn:He; [|discriminate].
    apply (IH s1); [|exact Hrun]. now apply (task_step _ _ _ He).
Qed.

(** C2.  In every interleaving from a logger in service to a state where
    [Close] has returned, the send of the shutdown signal and, later, the
    goroutine's acknowledgment are among the actions performed, and the
    goroutine has returned from [asyncFlush]; whatever happens afterwards it
    is not in its loop: it is never found waiting again. *)
Theorem Close_returns_after_task (s : system) (ls1 : list label) (s1 : system)
  (ls2 : list label) (s2 : system) :
  running s ->
  run s ls1 = Some s1 ->
  closer s1 = Returned ->
  run s1 ls2 = Some s2 ->
  (exists a b c, ls1 = (a ++ Shutdown :: b ++ Ack :: c)%list)
  /\ task s1 = Done
  /\ task s2 = Done
  /\ in_loop (task s2) = false
  /\ (forall d, task s2 <> AtSelect d).
Proof.
  intros (Hc & _) Hrun1 Hret Hrun2.
  pose proof (handshake_run s ls1 s1 Hc Hrun1) as Hh.
  unfold handshake in Hh. rewrite Hret in Hh. destruct Hh as [Hk Hls].
  pose proof (Done_run s1 ls2 s2 Hk Hrun2) as Hk2.
  repeat split; try assumption.
  - now rewrite Hk2.
  - intros d Hd. rewrite Hk2 in Hd. discriminate.
Qed.

Lemma Close_returns_after_task_witness :
  (exists a b c,
      (sample_close ++ [CloseFile] = a ++ Shutdown :: b ++ Ack :: c)%list)
  /\ task (after (start sample_buffered "") (sample_close ++ [CloseFile])) = Done
  /\ task (after (after (start sample_buffered "") (sample_close ++ [CloseFile]))
                 sample_late) = Done
  /\ in_loop
       (task (after (after (start sample_buffered "")
                           (sample_close ++ [CloseFile])) sample_late)) = false
  /\ (forall d,
        task (after (after (start sample_buffered "")
                           (sample_close ++ [CloseFile])) sample_late)
        <> AtSelect d).
Proof.
  apply (Close_returns_after_task
           (start sample_buffered "") (sample_close ++ [CloseFile])
           (after (start sample_buffered "") (sample_close ++ [CloseFile]))
           sample_late
           (after (after (start sample_buffered "") (sample_close ++ [CloseFile]))
                  sample_late)).
  - repeat split; reflexivity.
  - vm_compute; reflexivity.
  - vm_compute; reflexivity.
  - vm_compute; reflexivity.
Defined.

(** ** The flush interval and the goroutine's wait *)

Ltac exec_cases Hex :=
  repeat match type of Hex with
    | context [lock_free ?c] => destruct (lock_free c)
    | context [in_int32 ?n] => destruct (in_int32 n)
    | context [match closer ?a with _ => _ end] => destruct (closer a)
    | context [match task ?a with _ => _ end] => destruct (task a) eqn:?
    | context [do_print _ ?r _] =>
        let Hp := fresh "Hp" in
        destruct r as [[? ?]| |] eqn:Hp; cbn [do_print] in Hex;
        [ first [apply print_inv in Hp | apply Print_inv in Hp] | | ]
    | context [do_flush _ ?r _] =>
        let Hp := fresh "Hp" in
        destruct r as [?| |] eqn:Hp; cbn [do_flush] in Hex;
        [ apply flushLogs_inv in Hp | | ]
    end;
  try discriminate; injection Hex as <-; subst; stage_fields.

(** Only [SetFlushIntervalSec] writes [flushSec]; nothing writes [name]. *)
Lemma frame_step (s : system) (l : label) (s' : system) :
  exec s l = Some s' ->
  BufferedLog.name (log s') = BufferedLog.name (log s)
  /\ (is_set_interval l = false ->
      BufferedLog.flushSec (log s') = BufferedLog.flushSec (log s)).
Proof.
  intros Hex. pose proof (exec_alive _ _ _ Hex) as Hcr.
  unfold exec in Hex. rewrite Hcr in Hex.
  destruct l; exec_cases Hex; split; intros; cbn in *;
    first [reflexivity | discriminate].
Qed.

Lemma flushSec_run (s : system) (ls : list label) (s' : system) :
  run s ls = Some s' ->
  forallb (fun l => negb (is_set_interval l)) ls = true ->
  BufferedLog.flushSec (log s') = BufferedLog.flushSec (log s).
Proof.
  revert s. induction ls as [|l ls IH]; intros s Hrun Hno.
  - now injection Hrun as <-.
  - cbn [run] in Hrun. destruct (exec s l) as [s1|] eqn:He; [|discriminate].
    cbn [forallb] in Hno. apply andb_prop in Hno. destruct Hno as [Hl Hls].
    rewrite (IH s1 Hrun Hls). apply (frame_step _ _ _ He).
    now destruct (is_set_interval l).
Qed.

(** A wait in progress ends by its own timer or by the shutdown signal, and
    a wait begins only at the load of [flushSec], with that value. *)
Lemma wait_step (s : system) (l : label) (s' : system) :
  exec s l = Some s' ->
  (forall d, task s = AtSelect d ->
     task s' = AtSelect d \/ l = TaskTimer \/ l = Shutdown)
  /\ (forall d, task s' = AtSelect d ->
        task s = AtSelect d
        \/ (l = TaskLoad /\ task s = AtLoad
            /\ d = Duration (BufferedLog.flushSec (log s)))).
Proof.
  intros Hex. pose proof (exec_alive _ _ _ Hex) as Hcr.
  unfold exec in Hex. rewrite Hcr in Hex.
  destruct l; exec_cases Hex;
    try match goal with
        | H : task ?a = _ |- context [task ?a] => rewrite H
        end;
    split; intros d' Hd; try discriminate;
    first [ now left
          | now (right; left)
          | now (right; right)
          | injection Hd as <-; right; now repeat split ].
Qed.

(** C4.  A call of [SetFlushIntervalSec n] while the goroutine waits with a
    timer of [d] nanoseconds leaves the goroutine in that wait with that
    timer: afterwards, as before, only the expiry of the timer or the
    shutdown signal ends the wait.  A wait begins only at the load of
    [flushSec] at the head of the loop, with the value read there; so every
    wait the goroutine begins later, up to the next call that sets the
    interval, lasts [n] seconds. *)
Theorem SetFlushIntervalSec_next_wait (s : system) (n d : Z) :
  crashed s = None ->
  in_int32 n = true ->
  task s = AtSelect d ->
  exists s1,
    exec s (CallSetFlushIntervalSec n) = Some s1
    /\ task s1 = AtSelect d
    /\ BufferedLog.flushSec (log s1) = n
    /\ (forall l s2, exec s1 l = Some s2 ->
          task s2 = AtSelect d \/ l = TaskTimer \/ l = Shutdown)
    /\ (forall ls s2 s3,
          run s1 ls = Some s2 ->
          forallb (fun l => negb (is_set_interval l)) ls = true ->
          exec s2 TaskLoad = Some s3 ->
          task s3 = AtSelect (Duration n))
    /\ (forall a l a' d',
          exec a l = Some a' -> task a' = AtSelect d' ->
          task a = AtSelect d'
          \/ (l = TaskLoad /\ task a = AtLoad
              /\ d' = Duration (BufferedLog.flushSec (log a)))).
Proof.
  intros Hcr Hn Hk.
  exists (set_log s (BufferedLog.SetFlushIntervalSec (log s) n)).
  split; [unfold exec; now rewrite Hcr, Hn|].
  split; [exact Hk|]. split; [reflexivity|].
  split; [|split].
  - intros l s2 He. apply (wait_step _ _ _ He). exact Hk.
  - intros ls s2 s3 Hrun Hno He.
    pose proof (flushSec_run _ _ _ Hrun Hno) as Hf. cbn in Hf.
    pose proof (exec_alive _ _ _ He) as Hcr2.
    unfold exec in He. rewrite Hcr2 in He.
    destruct (task s2); try discriminate. injection He as <-.
    cbn. now rewrite Hf.
  - intros a l a' d' He. apply (wait_step _ _ _ He).
Qed.

Lemma SetFlushIntervalSec_next_wait_witness :
  exists s1,
    exec sample_waiting (CallSetFlushIntervalSec 1) = Some s1
    /\ task s1 = AtSelect (Duration 5)
    /\ BufferedLog.flushSec (log s1) = 1
    /\ (forall l s2, exec s1 l = Some s2 ->
          task s2 = AtSelect (Duration 5) \/ l = TaskTimer \/ l = Shutdown)
    /\ (forall ls s2 s3,
          run s1 ls = Some s2 ->
          forallb (fun l => negb (is_set_interval l)) ls = true ->
          exec s2 TaskLoad = Some s3 ->
          task s3 = AtSelect (Duration 1))
    /\ (forall a l a' d',
          exec a l = Some a' -> task a' = AtSelect d' ->
          task a = AtSelect d'
          \/ (l = TaskLoad /\ task a = AtLoad
              /\ d' = Duration (BufferedLog.flushSec (log a)))).
Proof.
  apply (SetFlushIntervalSec_next_wait sample_waiting 1 (Duration 5));
    vm_compute; reflexivity.
Defined.

(** ** What reaches the file *)


Lemma logged_step (s : system) (l : label) (s' : system) :
  exec s l = Some s' -> crashed s' = None ->
  logged_bytes (log s') = logged_bytes (log s) ++ entry_of s l.
Proof.
  intros Hex. pose proof (exec_alive _ _ _ Hex) as Hcr.
  unfold exec in Hex. rewrite Hcr in Hex.
  destruct l; exec_cases Hex; intros Hc; try discriminate;
    cbn [entry_of];
    rewrite ?logged_bytes_print, ?logged_bytes_flush, ?append_empty_r;
    reflexivity.
Qed.











(** ** Close can return *)

Lemma flushLogs_ok (b : BufferedLog.t) :
  is_open (BufferedLog.file b) = true ->
  exists b',
    BufferedLog.flushLogs b io_ok = Ok b'
    /\ is_open (BufferedLog.file b') = true.
Proof.
  intros Ho. unfold BufferedLog.flushLogs.
  destruct (String.eqb (BufferedLog.buffer b) ""); cbn [bind].
  - rewrite Ho. cbn. eexists. split; [reflexivity | exact Ho].
  - rewrite Ho. cbn. rewrite Ho. cbn. eexists. split; [reflexivity | exact Ho].
Qed.

Ltac exec_fields :=
  cbn [run exec crashed closer task log stderr set_log set_closer set_task
       lock_free do_print do_flush BufferedLog.set_enabled BufferedLog.set_buffer
       BufferedLog.file BufferedLog.name BufferedLog.buffer].

(** From a logger in service whose goroutine waits, the statements of
    [Close] and the goroutine's answer can all be taken, one after the
    other, when the file accepts the final write. *)
Lemma Close_from_wait (b : BufferedLog.t) (e : string) (d : Z) :
  is_open (BufferedLog.file b) = true ->
  exists s',
    run (mkSystem b e Idle (AtSelect d) None)
        ([CloseLock; CloseDisable; CloseMark noon noon; Shutdown;
          TaskMark noon noon; Ack; CloseFlush io_ok] ++ [CloseFile])
    = Some s'
    /\ closer s' = Returned.
Proof.
  intros Ho. cbn [app]. exec_fields.
  destruct (marker_print (BufferedLog.set_enabled b 0) close_marker noon noon)
    as [e1 He1]; [discriminate|].
  rewrite He1. exec_fields.
  match goal with
  | |- context [BufferedLog.print ?b1 shutdown_marker None noon noon] =>
      destruct (marker_print b1 shutdown_marker noon noon) as [e2 He2];
      [discriminate|]; rewrite He2; exec_fields;
      match goal with
      | |- context [BufferedLog.flushLogs ?b2 io_ok] =>
          destruct (flushLogs_ok b2) as (b3 & He3 & _); [exact Ho|];
          rewrite He3; exec_fields
      end
  end.
  eexists. split; reflexivity.
Qed.

(** X15.  Progress: from every logger in service, whatever its goroutine is
    doing, there is an interleaving in which [Close] returns: the goroutine
    reaches its wait, takes the shutdown signal and acknowledges it, and the
    final flush and the close of the file go through when the file accepts
    the writes. *)
Lemma Close_can_return (s : system) :
  running s ->
  exists ls s', run s (ls ++ [CloseFile]) = Some s' /\ closer s' = Returned.
Proof.
  destruct s as [b e c k cr]. intros (Hc & Hk & Hcr & Ho). cbn in Hc, Hk, Hcr, Ho.
  subst c cr. destruct k; try discriminate.
  - destruct (Close_from_wait b e (Duration (BufferedLog.flushSec b)) Ho)
      as (s' & Hrun & Hret).
    exists ([TaskLoad; CloseLock; CloseDisable; CloseMark noon noon; Shutdown;
             TaskMark noon noon; Ack; CloseFlush io_ok]), s'.
    split; [exact Hrun | exact Hret].
  - destruct (Close_from_wait b e d Ho) as (s' & Hrun & Hret).
    eexists. exists s'. split; [exact Hrun | exact Hret].
  - destruct (flushLogs_ok b Ho) as (b1 & Hf & Ho1).
    destruct (Close_from_wait b1 e (Duration (BufferedLog.flushSec b1)) Ho1)
      as (s' & Hrun & Hret).
    exists ([TaskFlush io_ok; TaskLoad; CloseLock; CloseDisable;
             CloseMark noon noon; Shutdown; TaskMark noon noon; Ack;
             CloseFlush io_ok]), s'.
    split; [|exact Hret].
    cbn [app]. exec_fields. rewrite Hf. exec_fields. exact Hrun.
Qed.

(** * Further properties of the code *)

(** ** A disabled logger *)

Lemma quiet_step (s : system) (l : label) (s' : system) :
  exec s l = Some s' ->
  quiet l = true ->
  BufferedLog.enabled (log s) < 1 ->
  logged_bytes (log s') = logged_bytes (log s)
  /\ BufferedLog.enabled (log s') < 1.
Proof.
  intros Hex Hq Hen. pose proof (exec_alive _ _ _ Hex) as Hcr.
  unfold exec in Hex. rewrite Hcr in Hex.
  destruct l; try discriminate Hq.
  - destruct (lock_free (closer s)); [|discriminate].
    unfold BufferedLog.Print in Hex.
    apply Z.ltb_lt in Hen. rewrite Hen in Hex. cbn [do_print] in Hex.
    injection Hex as <-. cbn [log]. split; [reflexivity | now apply Z.ltb_lt].
  - injection Hex as <-. cbn. split; [reflexivity | lia].
  - destruct (in_int32 interval); [|discriminate]. injection Hex as <-.
    cbn. split; [reflexivity | exact Hen].
  - destruct (task s); try discriminate. injection Hex as <-.
    split; [reflexivity | exact Hen].
  - destruct (task s); try discriminate. injection Hex as <-.
    split; [reflexivity | exact Hen].
  - destruct (task s); try discriminate.
    destruct (BufferedLog.flushLogs (log s) io) as [b| |] eqn:Hf;
      cbn [do_flush] in Hex; try discriminate; injection Hex as <-.
    + apply flushLogs_inv in Hf. subst b. cbn [log set_task set_log].
      rewrite logged_bytes_flush. split; [reflexivity | exact Hen].
    + split; [reflexivity | exact Hen].
Qed.

(** X1.  While the logger is disabled, whatever is passed to [Print] is
    dropped: over any run made of calls of [Print], [Disable] and
    [SetFlushIntervalSec] and of the goroutine's flush cycles, the bytes on
    disk plus the bytes pending stay what they were, and the logger stays
    disabled. *)
Theorem disabled_logger_drops (s : system) (ls : list label) (s' : system) :
  BufferedLog.enabled (log s) < 1 ->
  forallb quiet ls = true ->
  run s ls = Some s' ->
  logged_bytes (log s') = logged_bytes (log s)
  /\ BufferedLog.enabled (log s') < 1.
Proof.
  revert s. induction ls as [|l ls IH]; intros s Hen Hq Hrun.
  - injection Hrun as <-. split; [reflexivity | exact Hen].
  - cbn [run] in Hrun. destruct (exec s l) as [s1|] eqn:He; [|discriminate].
    cbn [forallb] in Hq. apply andb_prop in Hq. destruct Hq as [Hl Hls].
    destruct (quiet_step _ _ _ He Hl Hen) as [Hb1 Hen1].
    destruct (IH s1 Hen1 Hls Hrun) as [Hb Hen'].
    split; [now rewrite Hb | exact Hen'].
Qed.

Lemma disabled_logger_drops_witness :
  logged_bytes (log (after sample_disabled sample_quiet))
  = logged_bytes (log sample_disabled)
  /\ BufferedLog.enabled (log (after sample_disabled sample_quiet)) < 1.
Proof.
  apply (disabled_logger_drops sample_disabled sample_quiet
           (after sample_disabled sample_quiet));
    vm_compute; reflexivity.
Defined.

(** ** flushLogs *)

(** X2.  [flushLogs] either moves the whole buffer to the end of the file
    and empties it, or panics with the I/O error: it succeeds exactly when
    the file is open, [Sync] succeeds, and the write succeeds or the buffer
    is empty (no write is issued then). *)
Theorem flushLogs_outcome (b : BufferedLog.t) (io : io_result) :
  BufferedLog.flushLogs b io
  = if is_open (BufferedLog.file b) && sync_ok io
       && (String.eqb (BufferedLog.buffer b) "" || copy_ok io)
    then Ok (BufferedLog.set_buffer
               (BufferedLog.set_file b
                  (mkFile (fpath (BufferedLog.file b))
                          (data (BufferedLog.file b) ++ BufferedLog.buffer b)
                          (is_open (BufferedLog.file b)))) "")
    else Panic IOError.
Proof.
  unfold BufferedLog.flushLogs.
  destruct b as [bd bu en [p d o] fl nm]. cbn.
  destruct (String.eqb bu "") eqn:He; cbn.
  - apply String.eqb_eq in He. subst bu. rewrite append_empty_r.
    destruct o, (sync_ok io); reflexivity.
  - destruct o, (copy_ok io), (sync_ok io); reflexivity.
Qed.

(** X3.  A second [flushLogs] right after a successful one writes nothing
    and changes nothing: it succeeds whenever [Sync] does, even if writes
    to the file would fail. *)
Theorem flushLogs_twice (b : BufferedLog.t) (io : io_result)
  (b' : BufferedLog.t) (io' : io_result) :
  BufferedLog.flushLogs b io = Ok b' ->
  sync_ok io' = true ->
  BufferedLog.buffer b' = ""
  /\ data (BufferedLog.file b')
     = data (BufferedLog.file b) ++ BufferedLog.buffer b
  /\ BufferedLog.flushLogs b' io' = Ok b'.
Proof.
  intros Hf Hs. rewrite flushLogs_outcome in Hf.
  destruct (is_open (BufferedLog.file b) && sync_ok io
            && (String.eqb (BufferedLog.buffer b) "" || copy_ok io)) eqn:Hc;
    [|discriminate].
  injection Hf as <-. split; [reflexivity|]. split; [reflexivity|].
  apply andb_prop in Hc. destruct Hc as [Hc _].
  apply andb_prop in Hc. destruct Hc as [Ho _].
  rewrite flushLogs_outcome. cbn. rewrite Ho, Hs. cbn.
  now rewrite append_empty_r.
Qed.

Lemma flushLogs_twice_witness :
  BufferedLog.buffer
    (BufferedLog.set_buffer
       (BufferedLog.set_file (BufferedLog.set_buffer sample_buffered "abc")
          (mkFile "logs/app.log" "abc" true)) "") = ""
  /\ data (BufferedLog.file
             (BufferedLog.set_buffer
                (BufferedLog.set_file (BufferedLog.set_buffer sample_buffered "abc")
                   (mkFile "logs/app.log" "abc" true)) ""))
     = data (BufferedLog.file (BufferedLog.set_buffer sample_buffered "abc"))
         ++ BufferedLog.buffer (BufferedLog.set_buffer sample_buffered "abc")
  /\ BufferedLog.flushLogs
       (BufferedLog.set_buffer
          (BufferedLog.set_file (BufferedLog.set_buffer sample_buffered "abc")
             (mkFile "logs/app.log" "abc" true)) "")
       (mkIO false true)
     = Ok (BufferedLog.set_buffer
             (BufferedLog.set_file (BufferedLog.set_buffer sample_buffered "abc")
                (mkFile "logs/app.log" "abc" true)) "").
Proof.
  apply (flushLogs_twice (BufferedLog.set_buffer sample_buffered "abc") io_ok
           _ (mkIO false true)); reflexivity.
Defined.

(** ** DirectLog *)

Lemma direct_print_inv (d : DirectLog.t) (f : string) (v : slice) (t1 t2 : Time)
  (wok : bool) (e : string) (d' : DirectLog.t) :
  DirectLog.Print d f v t1 t2 wok = Ok (e, d') ->
  1 <= DirectLog.enabled d ->
  exists m,
    message (DirectLog.name d) f (wrapped v) = Ok m
    /\ d' = DirectLog.logger_write d wok
              (Output FLogFlags t2
                 (match v with
                  | None => DirectLog.logger_Print
                  | Some _ => DirectLog.logger_Printf
                  end) m).
Proof.
  intros H Hen. unfold DirectLog.Print in H.
  assert (Hlt : (DirectLog.enabled d <? 1) = false) by (apply Z.ltb_ge; lia).
  rewrite Hlt in H. unfold message, wrapped.
  destruct v as [a|]; unfold DirectLog.print in H;
    destruct (fixFormat (DirectLog.name d) f) as [f'| |]; cbn [bind] in *;
    try discriminate.
  - destruct (Sprintf f' [VSlice [VSlice a]]) as [m|]; cbn [of_option bind] in *;
      [|discriminate].
    injection H as _ <-. now exists m.
  - injection H as _ <-. now exists (Sprint f').
Qed.

(** X4.  [DirectLog.Print] on an enabled logger writes the entry to the
    file before it returns, and nowhere else; a write that fails is dropped
    without an error and leaves the logger as it was.  With operands [a] the
    message is the one [fixFormat] and [Sprintf] give for the single operand
    [[a]]: the operand list wrapped twice. *)
Theorem DirectLog_Print_writes_through (d : DirectLog.t) (f : string)
  (v : slice) (t1 t2 : Time) (wok : bool) (e : string) (d' : DirectLog.t) :
  1 <= DirectLog.enabled d ->
  DirectLog.Print d f v t1 t2 wok = Ok (e, d') ->
  (exists m, message (DirectLog.name d) f (wrapped v) = Ok m)
  /\ DirectLog.enabled d' = DirectLog.enabled d
  /\ DirectLog.name d' = DirectLog.name d
  /\ is_open (DirectLog.file d') = is_open (DirectLog.file d)
  /\ data (DirectLog.file d')
     = data (DirectLog.file d)
         ++ (if is_open (DirectLog.file d) && wok
             then direct_line (DirectLog.name d) f v t2 else "").
Proof.
  intros Hen H. destruct (direct_print_inv _ _ _ _ _ _ _ _ H Hen) as (m & Hm & ->).
  split; [now exists m|].
  unfold DirectLog.logger_write, direct_line. rewrite Hm.
  destruct (is_open (DirectLog.file d) && wok); cbn.
  - now repeat split.
  - rewrite append_empty_r. now repeat split.
Qed.

Lemma DirectLog_Print_writes_through_witness :
  (exists m, message "app" "%s" (wrapped (Some [VString "a"])) = Ok m)
  /\ DirectLog.enabled
       (DirectLog.set_file sample_direct
          (write sample_file (direct_line "app" "%s" (Some [VString "a"]) later)))
     = DirectLog.enabled sample_direct
  /\ DirectLog.name
       (DirectLog.set_file sample_direct
          (write sample_file (direct_line "app" "%s" (Some [VString "a"]) later)))
     = DirectLog.name sample_direct
  /\ is_open (DirectLog.file
       (DirectLog.set_file sample_direct
          (write sample_file (direct_line "app" "%s" (Some [VString "a"]) later))))
     = is_open (DirectLog.file sample_direct)
  /\ data (DirectLog.file
       (DirectLog.set_file sample_direct
          (write sample_file (direct_line "app" "%s" (Some [VString "a"]) later))))
     = data (DirectLog.file sample_direct)
         ++ (if is_open (DirectLog.file sample_direct) && true
             then direct_line (DirectLog.name sample_direct) "%s"
                    (Some [VString "a"]) later
             else "").
Proof.
  apply (DirectLog_Print_writes_through sample_direct "%s" (Some [VString "a"])
           noon later true
           (Output FLogFlags noon DirectLog.std_Printf ("[APP] [[a]]" ++ nl))).
  - vm_compute. discriminate.
  - vm_compute. reflexivity.
Defined.

Lemma Output_fixed (n f : string) (t : Time) (caller : site) :
  f <> "" ->
  Output FLogFlags t caller
    ("[" ++ ToUpper n ++ "] " ++ f ++ (if ends_with_newline f then "" else nl))
  = formatHeader FLogFlags t caller
      ++ "[" ++ ToUpper n ++ "] " ++ f ++ (if ends_with_newline f then "" else nl).
Proof.
  intros Hne. unfold Output.
  destruct (fixed_format_newlines (ToUpper n) f Hne) as [Hend _].
  cbv zeta in Hend. rewrite Hend, append_empty_r. reflexivity.
Qed.

(** X5.  [DirectLog.Close] never panics.  It leaves the logger disabled and
    the file closed; the close marker line is written to the file although
    the logger is disabled by then (when the file is open and the write
    succeeds), and every later [Print] is a no-op. *)
Theorem DirectLog_Close_effect (d : DirectLog.t) (t1 t2 : Time) (wok : bool) :
  exists e d',
    DirectLog.Close d t1 t2 wok = Ok (e, d')
    /\ DirectLog.enabled d' = 0
    /\ is_open (DirectLog.file d') = false
    /\ data (DirectLog.file d')
       = data (DirectLog.file d)
           ++ (if is_open (DirectLog.file d) && wok
               then formatHeader FLogFlags t2 DirectLog.logger_Print
                      ++ "[" ++ ToUpper (DirectLog.name d) ++ "] "
                      ++ "==== Close log ====" ++ nl
               else "")
    /\ (forall f v a b w, DirectLog.Print d' f v a b w = Ok ("", d')).
Proof.
  unfold DirectLog.Close, DirectLog.print.
  rewrite (fixFormat_eq _ close_marker) by discriminate.
  cbn [bind DirectLog.name DirectLog.set_enabled]. unfold Sprint.
  rewrite !(Output_fixed _ close_marker) by discriminate.
  eexists. eexists. split; [reflexivity|].
  unfold DirectLog.logger_write, DirectLog.Print.
  cbn [DirectLog.file DirectLog.set_enabled].
  destruct (is_open (DirectLog.file d) && wok);
    cbn [DirectLog.enabled DirectLog.file DirectLog.set_file close_file write
         is_open data Z.ltb Z.compare].
  - repeat split.
  - repeat split. now rewrite append_empty_r.
Qed.

(** ** New and Rotate *)

Lemma New_ok (fs : FileSystem) (name logPath : string) (t1 t2 : Time)
  (wok : bool) (bytes : string) :
  MkdirAll fs logPath = true ->
  OpenFile fs (path_Join logPath (name ++ ".log")) = Some bytes ->
  New fs name logPath BufferedFile t1 t2 wok
  = Ok (Output FLogFlags t1 BufferedLog.std_Print
          ("[" ++ ToUpper name ++ "] " ++ "==== Log init ====" ++ nl),
        Some (Buffered
                (BufferedLog.mk logPath
                   (formatHeader FLogFlags t2 BufferedLog.logger_Print
                      ++ "[" ++ ToUpper name ++ "] " ++ "==== Log init ====" ++ nl)
                   1
                   (mkFile (path_Join logPath (name ++ ".log")) bytes true)
                   5 name)))
  /\ New fs name logPath DirectFile t1 t2 wok
     = Ok (Output FLogFlags t1 DirectLog.std_Print
             ("[" ++ ToUpper name ++ "] " ++ "==== Log init ====" ++ nl),
           Some (Direct
                   (DirectLog.mk logPath 1
                      (mkFile (path_Join logPath (name ++ ".log"))
                         (bytes
                          ++ (if wok
                              then formatHeader FLogFlags t2 DirectLog.logger_Print
                                     ++ "[" ++ ToUpper name ++ "] "
                                     ++ "==== Log init ====" ++ nl
                              else ""))
                         true)
                      name))).
Proof.
  intros Hm Ho. unfold New, mkdir. rewrite Hm. cbn [bind]. rewrite Ho.
  split.
  - change (BufferedFile =? BufferedFile) with true. cbv iota.
    cbn [FLog_Print]. unfold BufferedLog.Print, BufferedLog.print.
    cbn [BufferedLog.enabled BufferedLog.name].
    change (1 <? 1) with false. cbv iota.
    rewrite (fixFormat_eq _ init_marker) by discriminate.
    cbn [bind fst snd]. unfold Sprint.
    rewrite (Output_fixed _ init_marker _ BufferedLog.logger_Print)
      by discriminate.
    reflexivity.
  - change (DirectFile =? BufferedFile) with false.
    change (DirectFile =? DirectFile) with true. cbv iota.
    cbn [FLog_Print]. unfold DirectLog.Print, DirectLog.print.
    cbn [DirectLog.enabled DirectLog.name].
    change (1 <? 1) with false. cbv iota.
    rewrite (fixFormat_eq _ init_marker) by discriminate.
    cbn [bind fst snd]. unfold DirectLog.logger_write.
    cbn [DirectLog.file is_open andb]. unfold Sprint.
    rewrite (Output_fixed _ init_marker _ DirectLog.logger_Print)
      by discriminate.
    destruct wok; cbn [bind fst snd].
    + reflexivity.
    + now rewrite append_empty_r.
Qed.

(** X6.  When the directory is made and the file opened, [New] of a
    [BufferedFile] returns an enabled logger with the default interval of
    five seconds whose init marker line is pending in the buffer, the file
    still holding what it held; [New] of a [DirectFile] returns an enabled
    logger whose init marker line is already in the file (when the write
    succeeds).  Both echo the marker to the standard logger. *)
Theorem New_success (fs : FileSystem) (name logPath : string) (t1 t2 : Time)
  (wok : bool) (bytes : string) :
  MkdirAll fs logPath = true ->
  OpenFile fs (path_Join logPath (name ++ ".log")) = Some bytes ->
  New fs name logPath BufferedFile t1 t2 wok
  = Ok (Output FLogFlags t1 BufferedLog.std_Print
          ("[" ++ ToUpper name ++ "] " ++ "==== Log init ====" ++ nl),
        Some (Buffered
                (BufferedLog.mk logPath
                   (formatHeader FLogFlags t2 BufferedLog.logger_Print
                      ++ "[" ++ ToUpper name ++ "] " ++ "==== Log init ====" ++ nl)
                   1
                   (mkFile (path_Join logPath (name ++ ".log")) bytes true)
                   5 name)))
  /\ New fs name logPath DirectFile t1 t2 wok
     = Ok (Output FLogFlags t1 DirectLog.std_Print
             ("[" ++ ToUpper name ++ "] " ++ "==== Log init ====" ++ nl),
           Some (Direct
                   (DirectLog.mk logPath 1
                      (mkFile (path_Join logPath (name ++ ".log"))
                         (bytes
                          ++ (if wok
                              then formatHeader FLogFlags t2 DirectLog.logger_Print
                                     ++ "[" ++ ToUpper name ++ "] "
                                     ++ "==== Log init ====" ++ nl
                              else ""))
                         true)
                      name))).
Proof. exact (New_ok fs name logPath t1 t2 wok bytes). Qed.


Lemma New_success_witness :
  exists e b,
    New fs_fresh "app" "logs" BufferedFile noon later true
    = Ok (e, Some (Buffered b))
    /\ BufferedLog.flushSec b = 5 /\ data (BufferedLog.file b) = "".
Proof.
  destruct (New_success fs_fresh "app" "logs" noon later true "")
    as [Hb _]; [reflexivity | reflexivity |].
  eexists. eexists. split; [exact Hb|]. split; reflexivity.
Defined.

Lemma archive_name_eq (now : Time) (name : string) :
  archive_name now name
  = Some (Fmt.itoa (Z.of_N (year now)) ++ Fmt.itoa (Z.of_N (month now))
            ++ Fmt.itoa (Z.of_N (day now)) ++ "-" ++ name ++ ".log").
Proof.
  unfold archive_name. cbn [Sprintf Ascii.eqb Bool.eqb is_verb orb option_map
                            printValue append extra].
  reflexivity.
Qed.

(** X7.  The archive name is the year, the month and the day in decimal
    without padding, a dash, the name and [.log]; so different days can
    give the same archive: for every year and name, the eleventh of January
    and the first of November do. *)
Theorem archive_name_not_padded (y : N) (name : string)
  (h1 m1 s1 n1 h2 m2 s2 n2 : N) :
  (forall now,
      archive_name now name
      = Some (Fmt.itoa (Z.of_N (year now)) ++ Fmt.itoa (Z.of_N (month now))
                ++ Fmt.itoa (Z.of_N (day now)) ++ "-" ++ name ++ ".log"))
  /\ archive_name (mkTime y 1 11 h1 m1 s1 n1) name
     = archive_name (mkTime y 11 1 h2 m2 s2 n2) name.
Proof.
  split; [intros now; apply archive_name_eq|].
  rewrite !archive_name_eq. reflexivity.
Qed.

Lemma New_buffered_cases (fs : FileSystem) (name logPath : string)
  (t1 t2 : Time) (wok : bool) :
  (MkdirAll fs logPath = false
   /\ New fs name logPath BufferedFile t1 t2 wok = Panic IOError)
  \/ (MkdirAll fs logPath = true
      /\ OpenFile fs (path_Join logPath (name ++ ".log")) = None
      /\ New fs name logPath BufferedFile t1 t2 wok = Ok ("", None))
  \/ (exists bytes e,
        MkdirAll fs logPath = true
        /\ OpenFile fs (path_Join logPath (name ++ ".log")) = Some bytes
        /\ New fs name logPath BufferedFile t1 t2 wok
           = Ok (e, Some (Buffered
                   (BufferedLog.mk logPath
                      (formatHeader FLogFlags t2 BufferedLog.logger_Print
                         ++ "[" ++ ToUpper name ++ "] " ++ "==== Log init ===="
                         ++ nl)
                      1
                      (mkFile (path_Join logPath (name ++ ".log")) bytes true)
                      5 name)))).
Proof.
  destruct (MkdirAll fs logPath) eqn:Hm.
  - destruct (OpenFile fs (path_Join logPath (name ++ ".log"))) as [bytes|] eqn:Ho.
    + right. right. exists bytes. eexists. split; [reflexivity|].
      split; [reflexivity|].
      exact (proj1 (New_ok fs name logPath t1 t2 wok bytes Hm Ho)).
    + right. left. split; [reflexivity|]. split; [reflexivity|].
      unfold New, mkdir. rewrite Hm. cbn [bind]. now rewrite Ho.
  - left. split; [reflexivity|]. unfold New, mkdir. now rewrite Hm.
Qed.

(** X8.  When [Rotate] of a buffered logger returns, it returns a buffered
    logger, never nil, with the flush interval of the logger rotated (not
    the default), its name and its base directory; the new logger is
    enabled, its file is the log file at the original path, open, and its
    init marker line is pending in the buffer. *)
Theorem Rotate_keeps_interval (os : OS) (b : BufferedLog.t) (now t1 t2 : Time)
  (wok : bool) (err : string) (l : option FLog) :
  Rotate_after_Close os (Buffered b) now t1 t2 wok = Rotated err l ->
  exists b',
    l = Some (Buffered b')
    /\ BufferedLog.FlushIntervalSec b' = BufferedLog.FlushIntervalSec b
    /\ BufferedLog.name b' = BufferedLog.name b
    /\ BufferedLog.baseDir b' = BufferedLog.baseDir b
    /\ BufferedLog.enabled b' = 1
    /\ is_open (BufferedLog.file b') = true
    /\ fpath (BufferedLog.file b')
       = path_Join (BufferedLog.baseDir b) (BufferedLog.name b ++ ".log")
    /\ BufferedLog.buffer b'
       = formatHeader FLogFlags t2 BufferedLog.logger_Print
           ++ "[" ++ ToUpper (BufferedLog.name b) ++ "] "
           ++ "==== Log init ====" ++ nl.
Proof.
  unfold Rotate_after_Close. cbn [FLog_BaseDir FLog_Name].
  destruct (mkdir (os_fs os) (path_Join (BufferedLog.baseDir b) "old"));
    try discriminate.
  rewrite archive_name_eq.
  destruct (Rename os _ _); [|discriminate].
  destruct (New_buffered_cases (os_fs os) (BufferedLog.name b)
              (BufferedLog.baseDir b) t1 t2 wok)
    as [(_ & ->) | [(_ & _ & ->) | (bytes & e & _ & _ & ->)]];
    try discriminate.
  intros H. injection H as _ <-. eexists. split; [reflexivity|].
  now repeat split.
Qed.

Lemma Rotate_keeps_interval_witness :
  exists b',
    Some (Buffered
            (BufferedLog.mk "logs"
               (formatHeader FLogFlags later BufferedLog.logger_Print
                  ++ "[" ++ ToUpper "app" ++ "] " ++ "==== Log init ====" ++ nl)
               1 (mkFile "logs/app.log" "" true) 9 "app"))
    = Some (Buffered b')
    /\ BufferedLog.FlushIntervalSec b'
       = BufferedLog.FlushIntervalSec
           (BufferedLog.SetFlushIntervalSec sample_buffered 9)
    /\ BufferedLog.name b'
       = BufferedLog.name (BufferedLog.SetFlushIntervalSec sample_buffered 9)
    /\ BufferedLog.baseDir b'
       = BufferedLog.baseDir (BufferedLog.SetFlushIntervalSec sample_buffered 9)
    /\ BufferedLog.enabled b' = 1
    /\ is_open (BufferedLog.file b') = true
    /\ fpath (BufferedLog.file b')
       = path_Join
           (BufferedLog.baseDir (BufferedLog.SetFlushIntervalSec sample_buffered 9))
           (BufferedLog.name (BufferedLog.SetFlushIntervalSec sample_buffered 9)
              ++ ".log")
    /\ BufferedLog.buffer b'
       = formatHeader FLogFlags later BufferedLog.logger_Print
           ++ "[" ++ ToUpper (BufferedLog.name
                                (BufferedLog.SetFlushIntervalSec sample_buffered 9))
           ++ "] " ++ "==== Log init ====" ++ nl.
Proof.
  apply (Rotate_keeps_interval os_fresh
           (BufferedLog.SetFlushIntervalSec sample_buffered 9) noon noon later
           true
           (Output FLogFlags noon BufferedLog.std_Print
              ("[APP] ==== Log init ====" ++ nl))).
  vm_compute. reflexivity.
Defined.

(** X9.  A failed rename is fatal: when the [old] directory is there and
    [os.Rename] of the log file to the archive path fails, [Rotate] panics
    with that error, after the logger has been closed and before any new
    logger is made. *)
Theorem Rotate_rename_failure (os : OS) (l : FLog) (now t1 t2 : Time)
  (wok : bool) :
  MkdirAll (os_fs os) (path_Join (FLog_BaseDir l) "old") = true ->
  Rename os (path_Join (FLog_BaseDir l) (FLog_Name l ++ ".log"))
    (path_Join (path_Join (FLog_BaseDir l) "old")
       (Fmt.itoa (Z.of_N (year now)) ++ Fmt.itoa (Z.of_N (month now))
          ++ Fmt.itoa (Z.of_N (day now)) ++ "-" ++ FLog_Name l ++ ".log"))
  = false ->
  Rotate_after_Close os l now t1 t2 wok = RotatePanic IOError.
Proof.
  intros Hm Hr. unfold Rotate_after_Close, mkdir.
  rewrite Hm, archive_name_eq, Hr. reflexivity.
Qed.

Lemma Rotate_rename_failure_witness :
  Rotate_after_Close os_no_rename (Direct sample_direct) noon noon later true
  = RotatePanic IOError.
Proof.
  apply (Rotate_rename_failure os_no_rename (Direct sample_direct) noon noon
           later true); reflexivity.
Defined.

(** X10.  When the archive is made but the log file cannot be opened anew,
    the two kinds part: [Rotate] of a direct logger returns nil, [Rotate] of
    a buffered logger panics, at the type assertion on the nil that [New]
    returned. *)
Theorem Rotate_open_failure (os : OS) (l : FLog) (now t1 t2 : Time)
  (wok : bool) :
  MkdirAll (os_fs os) (path_Join (FLog_BaseDir l) "old") = true ->
  Rename os (path_Join (FLog_BaseDir l) (FLog_Name l ++ ".log"))
    (path_Join (path_Join (FLog_BaseDir l) "old")
       (Fmt.itoa (Z.of_N (year now)) ++ Fmt.itoa (Z.of_N (month now))
          ++ Fmt.itoa (Z.of_N (day now)) ++ "-" ++ FLog_Name l ++ ".log"))
  = true ->
  MkdirAll (os_fs os) (FLog_BaseDir l) = true ->
  OpenFile (os_fs os) (path_Join (FLog_BaseDir l) (FLog_Name l ++ ".log"))
  = None ->
  Rotate_after_Close os l now t1 t2 wok
  = match l with
    | Buffered _ => RotateNilConversion
    | Direct _ => Rotated "" None
    end.
Proof.
  intros Hm Hr Hb Ho. unfold Rotate_after_Close, mkdir.
  rewrite Hm, archive_name_eq, Hr. unfold New, mkdir. rewrite Hb.
  cbn [bind]. rewrite Ho. now destruct l.
Qed.

Lemma Rotate_open_failure_witness :
  Rotate_after_Close os_no_file (Buffered sample_buffered) noon noon later true
  = RotateNilConversion
  /\ Rotate_after_Close os_no_file (Direct sample_direct) noon noon later true
     = Rotated "" None.
Proof.
  split.
  - apply (Rotate_open_failure os_no_file (Buffered sample_buffered) noon noon
             later true); reflexivity.
  - apply (Rotate_open_failure os_no_file (Direct sample_direct) noon noon
             later true); reflexivity.
Defined.

(** ** More on the running system *)

Lemma returns_snoc (ls : list label) (l : label) :
  returns (ls ++ [l]) = (returns ls + (if is_CloseFile l then 1 else 0))%nat.
Proof.
  unfold returns. rewrite filter_app, length_app. cbn [filter].
  now destruct (is_CloseFile l).
Qed.

Ltac once_close :=
  stage_fields; cbn [is_CloseFile in_loop] in *; rewrite ?Nat.add_0_r;
  unpack; subst;
  repeat match goal with
         | H : true = true -> _ |- _ => specialize (H eq_refl)
         end;
  repeat split; intros; cbn [in_loop] in *;
  first [assumption | discriminate | reflexivity | lia | solve [auto] | idtac].

Lemma once_step (ls : list label) (s s' : system) (l : label) :
  once ls s -> exec s l = Some s' -> once (ls ++ [l]) s'.
Proof.
  destruct s as [b e c k cr]. unfold once at 1, exec.
  cbn [crashed closer task log].
  destruct cr; [discriminate|]. intros Hst Hex. unfold once.
  rewrite returns_snoc.
  destruct l.
  - destruct c; cbn [lock_free] in Hex; try discriminate.
    all: destruct (BufferedLog.Print b format v t1 t2) as [[? ?]| |];
      cbn [do_print] in Hex; try discriminate; injection Hex as <-.
    all: once_close.
  - injection Hex as <-. destruct c; once_close.
  - injection Hex as <-. destruct c; once_close.
  - destruct (in_int32 interval); [|discriminate].
    injection Hex as <-. destruct c; once_close.
  - destruct c; cbn [lock_free] in Hex; try discriminate.
    all: injection Hex as <-; once_close.
  - destruct c; try discriminate. injection Hex as <-. once_close.
  - destruct c; try discriminate.
    destruct (BufferedLog.print b close_marker None t1 t2) as [[? ?]| |];
      cbn [do_print] in Hex; try discriminate; injection Hex as <-;
      once_close.
  - destruct c; try discriminate. destruct k; try discriminate.
    injection Hex as <-. once_close.
  - destruct c; try discriminate.
    destruct (BufferedLog.flushLogs b io) as [?| |];
      cbn [do_flush] in Hex; try discriminate; injection Hex as <-;
      once_close.
  - destruct c; try discriminate. injection Hex as <-. once_close.
  - destruct k; try discriminate.
    injection Hex as <-; destruct c; once_close.
  - destruct k; try discriminate.
    injection Hex as <-; destruct c; once_close.
  - destruct k; try discriminate.
    destruct (BufferedLog.flushLogs b io) as [?| |];
      cbn [do_flush] in Hex; try discriminate; injection Hex as <-;
      destruct c; once_close.
  - destruct k; try discriminate.
    destruct (BufferedLog.print b shutdown_marker None t1 t2) as [[? ?]| |];
      cbn [do_print] in Hex; try discriminate; injection Hex as <-;
      destruct c; once_close.
  - destruct c; try discriminate. destruct k; try discriminate.
    injection Hex as <-. once_close.
Qed.

Lemma once_run (s : system) (ls : list label) (s' : system) :
  closer s = Idle -> run s ls = Some s' -> once ls s'.
Proof.
  intros Hc. revert s'.
  induction ls as [|l ls IH] using rev_ind; intros s' Hrun.
  - injection Hrun as <-. unfold once. rewrite Hc. split; [reflexivity|].
    cbn. lia.
  - destruct (run_snoc _ _ _ _ Hrun) as (s1 & Hrun1 & Hex).
    eapply once_step; [apply IH; exact Hrun1 | exact Hex].
Qed.

(** X11.  In no interleaving does [Close] return twice on one logger: among
    the actions of any run from a logger in service, the last statement of
    [Close] occurs at most once. *)
Theorem Close_returns_at_most_once (s : system) (ls : list label)
  (s' : system) :
  running s ->
  run s ls = Some s' ->
  (returns ls <= 1)%nat.
Proof.
  intros (Hc & _) Hrun. pose proof (once_run s ls s' Hc Hrun) as H.
  unfold once in H.
  destruct (closer s'); unpack; first [assumption | lia].
Qed.

Lemma Close_returns_at_most_once_witness :
  (returns ((sample_close ++ [CloseFile]) ++ [CloseLock; CloseDisable]) <= 1)%nat.
Proof.
  apply (Close_returns_at_most_once (start sample_buffered "")
           ((sample_close ++ [CloseFile]) ++ [CloseLock; CloseDisable])
           (after (start sample_buffered "")
                  ((sample_close ++ [CloseFile]) ++ [CloseLock; CloseDisable]))).
  - repeat split; reflexivity.
  - vm_compute. reflexivity.
Defined.

Lemma closed_step (s : system) (l : label) (s' : system) :
  closed_for_good s ->
  exec s l = Some s' ->
  closed_for_good s'
  /\ BufferedLog.file (log s') = BufferedLog.file (log s)
  /\ is_CloseFile l = false.
Proof.
  intros [Hk Hc] Hex. pose proof (exec_alive _ _ _ Hex) as Hcr.
  unfold closed_for_good. unfold exec in Hex. rewrite Hcr, Hk in Hex.
  destruct l; destruct (closer s) eqn:Hcl; try contradiction;
    cbn [lock_free] in Hex; try discriminate;
    exec_cases Hex; rewrite ?Hk, ?Hcl; now repeat split.
Qed.

(** X12.  Once [Close] has returned the file is never touched again and the
    logger cannot be closed a second time: whatever is called afterwards,
    the file keeps its contents and stays closed, the goroutine stays gone,
    and a second call of [Close] gets no further than its send on the
    channel, where it blocks; it never reaches its flush or its return. *)
Theorem after_Close_nothing_reaches_the_file (s : system) (ls1 : list label)
  (s1 : system) (ls2 : list label) (s2 : system) :
  running s ->
  run s ls1 = Some s1 ->
  closer s1 = Returned ->
  run s1 ls2 = Some s2 ->
  BufferedLog.file (log s2) = BufferedLog.file (log s1)
  /\ returns ls2 = O
  /\ task s2 = Done
  /\ (closer s2 = Returned \/ closer s2 = AtDisable \/ closer s2 = AtMark
      \/ closer s2 = AtSend).
Proof.
  intros (Hc & _) Hrun1 Hret Hrun2.
  pose proof (handshake_run s ls1 s1 Hc Hrun1) as Hh.
  unfold handshake in Hh. rewrite Hret in Hh. destruct Hh as [Hk _].
  assert (Hg : closed_for_good s1) by (split; [exact Hk | now rewrite Hret]).
  clear Hrun1 Hret Hk Hc. revert s1 Hg Hrun2.
  induction ls2 as [|l ls2 IH]; intros s1 Hg Hrun2.
  - injection Hrun2 as <-. destruct Hg as [Hk Hc].
    repeat split; try assumption; try reflexivity.
    destruct (closer s1); try contradiction; auto.
  - cbn [run] in Hrun2. destruct (exec s1 l) as [sa|] eqn:He; [|discriminate].
    destruct (closed_step _ _ _ Hg He) as (Hga & Hfa & Hla).
    destruct (IH sa Hga Hrun2) as (Hf & Hr & Hk & Hc).
    repeat split; try assumption.
    + now rewrite Hf.
    + unfold returns in *. cbn [filter]. now rewrite Hla.
Qed.

Lemma after_Close_nothing_reaches_the_file_witness :
  BufferedLog.file
    (log (after (after (start sample_buffered "") (sample_close ++ [CloseFile]))
                (sample_late ++ [CloseLock; CloseDisable; CloseMark noon noon])))
  = BufferedLog.file
      (log (after (start sample_buffered "") (sample_close ++ [CloseFile])))
  /\ returns (sample_late ++ [CloseLock; CloseDisable; CloseMark noon noon]) = O
  /\ task (after (after (start sample_buffered "") (sample_close ++ [CloseFile]))
                 (sample_late ++ [CloseLock; CloseDisable; CloseMark noon noon]))
     = Done
  /\ (closer (after (after (start sample_buffered "") (sample_close ++ [CloseFile]))
               (sample_late ++ [CloseLock; CloseDisable; CloseMark noon noon]))
      = Returned
      \/ closer (after (after (start sample_buffered "") (sample_close ++ [CloseFile]))
                  (sample_late ++ [CloseLock; CloseDisable; CloseMark noon noon]))
         = AtDisable
      \/ closer (after (after (start sample_buffered "") (sample_close ++ [CloseFile]))
                  (sample_late ++ [CloseLock; CloseDisable; CloseMark noon noon]))
         = AtMark
      \/ closer (after (after (start sample_buffered "") (sample_close ++ [CloseFile]))
                  (sample_late ++ [CloseLock; CloseDisable; CloseMark noon noon]))
         = AtSend).
Proof.
  apply (after_Close_nothing_reaches_the_file
           (start sample_buffered "") (sample_close ++ [CloseFile])
           (after (start sample_buffered "") (sample_close ++ [CloseFile]))
           (sample_late ++ [CloseLock; CloseDisable; CloseMark noon noon])
           (after (after (start sample_buffered "") (sample_close ++ [CloseFile]))
                  (sample_late ++ [CloseLock; CloseDisable; CloseMark noon noon]))).
  - repeat split; reflexivity.
  - vm_compute. reflexivity.
  - vm_compute. reflexivity.
  - vm_compute. reflexivity.
Defined.




(** X14.  An entry reaches the disk without [Close]: after a [Print] on an
    enabled logger, one expiry of the goroutine's timer and its [flushLogs]
    leave the buffer empty and the file holding what it held, what was
    pending, and the new entry at the end; the goroutine is back at the
    head of its loop and no statement of [Close] has run. *)
Theorem periodic_flush_reaches_disk (s : system) (f : string) (v : slice)
  (t1 t2 : Time) (io : io_result) (sa sb sc : system) :
  1 <= BufferedLog.enabled (log s) ->
  exec s (CallPrint f v t1 t2) = Some sa ->
  exec sa TaskTimer = Some sb ->
  exec sb (TaskFlush io) = Some sc ->
  crashed sc = None ->
  data (BufferedLog.file (log sc))
  = data (BufferedLog.file (log s)) ++ BufferedLog.buffer (log s)
      ++ line (BufferedLog.name (log s)) f v t2
  /\ BufferedLog.buffer (log sc) = ""
  /\ task sc = AtLoad
  /\ closer sc = closer s.
Proof.
  intros Hen H1 H2 H3 Hc.
  assert (Hlt : (BufferedLog.enabled (log s) <? 1) = false)
    by (apply Z.ltb_ge; lia).
  pose proof (exec_alive _ _ _ H3) as Hcb.
  pose proof (exec_alive _ _ _ H2) as Hca.
  pose proof (exec_alive _ _ _ H1) as Hcs.
  pose proof (logged_step _ _ _ H1 Hca) as L1.
  pose proof (logged_step _ _ _ H2 Hcb) as L2.
  pose proof (logged_step _ _ _ H3 Hc) as L3.
  cbn [entry_of] in L1, L2, L3. rewrite Hlt in L1.
  rewrite append_empty_r in L2, L3. rewrite L2, L1 in L3.
  unfold exec in H1, H2, H3. rewrite Hcs in H1. rewrite Hca in H2.
  rewrite Hcb in H3.
  destruct (lock_free (closer s)); [|discriminate].
  destruct (BufferedLog.Print (log s) f v t1 t2) as [[e b]| |];
    cbn [do_print] in H1; try discriminate; injection H1 as <-.
  - cbn [task closer] in H2. destruct (task s); try discriminate.
    injection H2 as <-. cbn [task set_task log] in H3.
    destruct (BufferedLog.flushLogs b io) as [b'| |] eqn:Hf;
      cbn [do_flush] in H3; try discriminate; injection H3 as <-.
    + apply flushLogs_inv in Hf. cbn [log set_task set_log set_closer] in *.
      subst b'. unfold logged_bytes at 1 in L3. cbn in L3.
      rewrite append_empty_r in L3. cbn [BufferedLog.file BufferedLog.set_buffer
        BufferedLog.set_file data BufferedLog.buffer task closer].
      split; [|now repeat split].
      rewrite L3. unfold logged_bytes. now rewrite append_assoc.
    + discriminate.
  - cbn [crashed crash] in Hca. discriminate.
Qed.

Lemma periodic_flush_reaches_disk_witness :
  data (BufferedLog.file
          (log (after sample_waiting
                  [CallPrint "hello" None noon later; TaskTimer; TaskFlush io_ok])))
  = data (BufferedLog.file (log sample_waiting))
      ++ BufferedLog.buffer (log sample_waiting)
      ++ line (BufferedLog.name (log sample_waiting)) "hello" None later
  /\ BufferedLog.buffer
       (log (after sample_waiting
               [CallPrint "hello" None noon later; TaskTimer; TaskFlush io_ok]))
     = ""
  /\ task (after sample_waiting
              [CallPrint "hello" None noon later; TaskTimer; TaskFlush io_ok])
     = AtLoad
  /\ closer (after sample_waiting
                [CallPrint "hello" None noon later; TaskTimer; TaskFlush io_ok])
     = closer sample_waiting.
Proof.
  apply (periodic_flush_reaches_disk sample_waiting "hello" None noon later io_ok
           (after sample_waiting [CallPrint "hello" None noon later])
           (after sample_waiting [CallPrint "hello" None noon later; TaskTimer])
           (after sample_waiting
              [CallPrint "hello" None noon later; TaskTimer; TaskFlush io_ok]));
    vm_compute; first [reflexivity | discriminate].
Defined.

Lemma Close_can_return_witness :
  exists ls s',
    run (start sample_buffered "") (ls ++ [CloseFile]) = Some s'
    /\ closer s' = Returned.
Proof.
  apply (Close_can_return (start sample_buffered "")).
  repeat split; reflexivity.
Defined.

Lemma DirectLog_Close_ok (d : DirectLog.t) (t1 t2 : Time) (wok : bool) :
  exists e d',
    DirectLog.Close d t1 t2 wok = Ok (e, d')
    /\ DirectLog.name d' = DirectLog.name d
    /\ DirectLog.baseDir d' = DirectLog.baseDir d.
Proof.
  unfold DirectLog.Close, DirectLog.print.
  rewrite (fixFormat_eq _ close_marker) by discriminate.
  cbn [bind DirectLog.name DirectLog.set_enabled].
  eexists. eexists. split; [reflexivity|].
  unfold DirectLog.logger_write.
  destruct (is_open (DirectLog.file (DirectLog.set_enabled d 0)) && wok);
    split; reflexivity.
Qed.

(** X16.  [Rotate] of a direct logger, when the operating system grants
    every call: it returns a direct logger with the name and the base
    directory of the logger rotated, enabled whether or not that one was,
    on the log file at the original path, open, with the init marker line
    written after what the file holds. *)
Theorem Rotate_direct_success (os : OS) (d : DirectLog.t) (c1 c2 : Time)
  (cok : bool) (now t1 t2 : Time) (bytes : string) :
  MkdirAll (os_fs os) (path_Join (DirectLog.baseDir d) "old") = true ->
  Rename os (path_Join (DirectLog.baseDir d) (DirectLog.name d ++ ".log"))
    (path_Join (path_Join (DirectLog.baseDir d) "old")
       (Fmt.itoa (Z.of_N (year now)) ++ Fmt.itoa (Z.of_N (month now))
          ++ Fmt.itoa (Z.of_N (day now)) ++ "-" ++ DirectLog.name d ++ ".log"))
  = true ->
  MkdirAll (os_fs os) (DirectLog.baseDir d) = true ->
  OpenFile (os_fs os) (path_Join (DirectLog.baseDir d) (DirectLog.name d ++ ".log"))
  = Some bytes ->
  exists err,
    Rotate_direct os d c1 c2 cok now t1 t2 true
    = Rotated err
        (Some (Direct
                 (DirectLog.mk (DirectLog.baseDir d) 1
                    (mkFile
                       (path_Join (DirectLog.baseDir d) (DirectLog.name d ++ ".log"))
                       (bytes
                        ++ formatHeader FLogFlags t2 DirectLog.logger_Print
                        ++ "[" ++ ToUpper (DirectLog.name d) ++ "] "
                        ++ "==== Log init ====" ++ nl)
                       true)
                    (DirectLog.name d)))).
Proof.
  intros Hm Hr Hb Ho. unfold Rotate_direct.
  destruct (DirectLog_Close_ok d c1 c2 cok) as (e & d' & -> & Hn & Hd).
  unfold Rotate_after_Close, mkdir. cbn [FLog_BaseDir FLog_Name].
  rewrite Hn, Hd, Hm, archive_name_eq, Hr.
  rewrite (proj2 (New_ok (os_fs os) (DirectLog.name d) (DirectLog.baseDir d)
                    t1 t2 true bytes Hb Ho)).
  eexists. reflexivity.
Qed.

Lemma Rotate_direct_success_witness :
  exists err,
    Rotate_direct os_fresh (DirectLog.Disable sample_direct) noon noon true
      noon later later true
    = Rotated err
        (Some (Direct
                 (DirectLog.mk "logs" 1
                    (mkFile "logs/app.log"
                       ("" ++ formatHeader FLogFlags later DirectLog.logger_Print
                        ++ "[" ++ ToUpper "app" ++ "] "
                        ++ "==== Log init ====" ++ nl)
                       true)
                    "app"))).
Proof.
  apply (Rotate_direct_success os_fresh (DirectLog.Disable sample_direct)
           noon noon true noon later later ""); reflexivity.
Defined.
